(** * MailChimp OAuth broker: session store, OAuth entry points, campaign send

    A shallow embedding of the Express backend
    ([src/index.ts], [src/services/mailchimpService.ts],
    [src/routes/mailchimp.ts], [src/types/mailchimp.ts],
    [src/config/mailchimp.ts]).

    - JavaScript strings are [string] (read as UTF-8 byte sequences);
    - the module-level [Map<string, UserSession>] is a [gmap string UserSession];
    - [async] handlers with [try]/[catch] run in a reader/state/exception
      monad [M]: the reader carries the provider's answers, the process
      environment and the clock, the state carries the session map, the
      list of outbound HTTP calls and the console;
    - JSON bodies passed to [res.json] are values of [Json]. *)

From Stdlib Require Import Ascii String DecimalString.
From stdpp Require Import gmap strings list fin_maps.

Local Open Scope string_scope.

(** ** JavaScript values and helpers *)

#[warnings="-register-all"]
Inductive Json :=
| JNull
| JBool (b : bool)
| JNum (n : Z)
| JStr (s : string)
| JArr (items : list Json)
| JObj (fields : list (string * Json)).

(** A parsed query-string value ([qs]): a string, an array or a nested object. *)
Inductive QueryValue :=
| QStr (s : string)
| QArr (items : list string)
| QObj.

(** [!!s] for a value typed [string | undefined]. *)
Definition truthy (o : option string) : bool :=
  match o with
  | Some s => negb (String.eqb s "")
  | None => false
  end.

(** [a || b] where [a : string | undefined]. *)
Definition or_else (o : option string) (d : string) : string :=
  if truthy o then default d o else d.

(** [!!v] for a query value: arrays and objects are always truthy. *)
Definition q_truthy (o : option QueryValue) : bool :=
  match o with
  | Some (QStr s) => negb (String.eqb s "")
  | Some (QArr _) => true
  | Some QObj => true
  | None => false
  end.

(** [typeof v === "string"]. *)
Definition q_is_string (o : option QueryValue) : bool :=
  match o with
  | Some (QStr _) => true
  | _ => false
  end.

Fixpoint js_join (sep : string) (l : list string) : string :=
  match l with
  | [] => ""
  | [x] => x
  | x :: r => x ++ sep ++ js_join sep r
  end.

(** [String(v)], the conversion [encodeURIComponent] applies to its argument. *)
Definition q_to_string (v : QueryValue) : string :=
  match v with
  | QStr s => s
  | QArr l => js_join "," l
  | QObj => "[object Object]"
  end.

(** String concatenation with a value typed [string | undefined]. *)
Definition js_string_of (o : option string) : string := default "undefined" o.

(** Decimal rendering of a non-negative integer, as [String(n)] does. *)
Definition js_number_to_string (n : N) : string :=
  NilZero.string_of_uint (N.to_uint n).

Definition is_uri_unreserved (c : ascii) : bool :=
  let n := nat_of_ascii c in
  ((65 <=? n)%nat && (n <=? 90)%nat) || ((97 <=? n)%nat && (n <=? 122)%nat)
  || ((48 <=? n)%nat && (n <=? 57)%nat)
  || existsb (Nat.eqb n) [45; 95; 46; 33; 126; 42; 39; 40; 41]%nat.

Definition hex_digit (n : nat) : ascii :=
  nth n (list_ascii_of_string "0123456789ABCDEF") "0"%char.

(** [encodeURIComponent]: every byte outside [A-Za-z0-9-_.!~*'()] becomes
    [%XX]. *)
Fixpoint encodeURIComponent (s : string) : string :=
  match s with
  | EmptyString => EmptyString
  | String c r =>
      if is_uri_unreserved c then String c (encodeURIComponent r)
      else
        let n := nat_of_ascii c in
        String "%" (String (hex_digit (n / 16)%nat)
          (String (hex_digit (n mod 16)%nat) (encodeURIComponent r)))
  end.

(** ** [src/types/mailchimp.ts] *)

Record MailChimpTokenResponse := {
  access_token : string;
  token_type : string;
  expires_in : option Z;
  refresh_token : option string;
  scope : option string;
}.

Record MailChimpLogin := {
  email : string;
  login_id : string;
  login_name : string;
  login_email : string;
}.

Record MailChimpMetadata := {
  dc : string;
  role : string;
  accountname : string;
  user_id : Z;
  login : MailChimpLogin;
  api_endpoint : string;
}.

Record MailChimpListStats := { member_count : Z }.

Record MailChimpList := {
  list_id : string;
  list_name : string;
  stats : MailChimpListStats;
}.

Record MailChimpListsApiResponse := {
  lists : list MailChimpList;
  total_items : Z;
}.

Record MailChimpCampaignSettings := {
  subject_line : string;
  title : string;
  from_name : string;
  reply_to : string;
}.

Record MailChimpCampaignApiResponse := {
  id : string;
  campaign_status : string;
  campaign_type : string;
  create_time : string;
  settings : MailChimpCampaignSettings;
}.

Record UserSession := {
  accessToken : string;
  metadata : MailChimpMetadata;
  connectedAt : N;
}.

Record MailChimpConfig := {
  clientId : string;
  clientSecret : string;
  redirectUri : string;
}.

(** ** The outside world *)

(** [process.env]. *)
Record ProcessEnv := {
  PORT : option string;
  FRONTEND_URL : option string;
  MAILCHIMP_CLIENT_ID : option string;
  MAILCHIMP_CLIENT_SECRET : option string;
  MAILCHIMP_REDIRECT_URI : option string;
}.

(** What [axios] rejects with: [error.response?.data] and [error.message]. *)
Record AxiosError := {
  response_data : option string;
  axios_message : string;
}.

(** One outbound HTTP request to the provider. *)
Inductive Outbound :=
| PostOAuthToken (cfg : MailChimpConfig) (code : string)
| GetMetadata (accessToken : string)
| GetLists (accessToken datacenter : string)
| PostCampaign (accessToken datacenter listId subject fromName replyTo : string)
| PutCampaignContent (accessToken datacenter campaignId htmlContent : string)
| PostCampaignSend (accessToken datacenter campaignId : string).

(** The provider's answer to each request of one handler run. *)
Record Provider := {
  oauth_token : MailChimpConfig -> string -> AxiosError + MailChimpTokenResponse;
  oauth_metadata : string -> AxiosError + MailChimpMetadata;
  api_lists : string -> string -> AxiosError + MailChimpListsApiResponse;
  api_campaigns :
    string -> string -> string -> string -> string -> string ->
    AxiosError + MailChimpCampaignApiResponse;
  api_campaign_content : string -> string -> string -> string -> AxiosError + unit;
  api_campaign_send : string -> string -> string -> AxiosError + unit;
}.

(** What a handler run reads from its surroundings. [math_random_36] is the
    text of [Math.random().toString(36)]. *)
Record Ctx := {
  provider : Provider;
  env : ProcessEnv;
  date_now : N;
  math_random_36 : string;
  new_date : N;
}.

(** Mutable state of the process: the module-level session map of
    [mailchimpService.ts], the outbound calls made so far and the console. *)
Record World := {
  userSessions : gmap string UserSession;
  outbound : list Outbound;
  console : list (string * string);
}.

(** ** Exceptions and the handler monad *)

(** [new Error(message)]. *)
Record JsError := { message : string }.

Inductive Outcome (A : Type) :=
| Return (a : A)
| Throw (e : JsError).
Arguments Return {A} a.
Arguments Throw {A} e.

Definition M (A : Type) : Type := Ctx -> World -> Outcome A * World.

Definition ret {A} (a : A) : M A := fun _ w => (Return a, w).

Definition bind {A B} (m : M A) (k : A -> M B) : M B :=
  fun c w =>
    match m c w with
    | (Return a, w') => k a c w'
    | (Throw e, w') => (Throw e, w')
    end.

Definition throw {A} (e : JsError) : M A := fun _ w => (Throw e, w).

Definition try_catch {A} (body : M A) (handler : JsError -> M A) : M A :=
  fun c w =>
    match body c w with
    | (Return a, w') => (Return a, w')
    | (Throw e, w') => handler e c w'
    end.

Definition ask : M Ctx := fun c w => (Return c, w).

Definition console_error (label text : string) : M unit :=
  fun _ w =>
    (Return tt,
     {| userSessions := userSessions w;
        outbound := outbound w;
        console := console w ++ [(label, text)] |}).

(** Perform one outbound request: record it and hand back the provider's
    answer. *)
Definition axios {A} (req : Outbound) (answer : Provider -> AxiosError + A)
  : M (AxiosError + A) :=
  fun c w =>
    (Return (answer (provider c)),
     {| userSessions := userSessions w;
        outbound := outbound w ++ [req];
        console := console w |}).

Notation "'let*' x ':=' m 'in' k" := (bind m (fun x => k))
  (at level 10, x name, m at level 100, k at level 200).
Notation "'do' m ';' k" := (bind m (fun _ => k))
  (at level 10, m at level 100, k at level 200).

(** ** [src/config/mailchimp.ts] *)

Definition getMailChimpConfig (e : ProcessEnv) : MailChimpConfig :=
  {| clientId := or_else (MAILCHIMP_CLIENT_ID e) "741151044464";
     clientSecret :=
       or_else (MAILCHIMP_CLIENT_SECRET e)
         "274283b1a39ed2a0316f248d97a8e7e58e42dfa153667bb8c0";
     redirectUri :=
       or_else (MAILCHIMP_REDIRECT_URI e)
         "http://127.0.0.1:3001/oauth-verify/mailchimp" |}.

Definition MAILCHIMP_OAUTH_URL : string := "https://login.mailchimp.com/oauth2/token".
Definition MAILCHIMP_METADATA_URL : string :=
  "https://login.mailchimp.com/oauth2/metadata".

(** The URL each outbound request goes to. *)
Definition outbound_url (o : Outbound) : string :=
  match o with
  | PostOAuthToken _ _ => MAILCHIMP_OAUTH_URL
  | GetMetadata _ => MAILCHIMP_METADATA_URL
  | GetLists _ datacenter =>
      "https://" ++ datacenter ++ ".api.mailchimp.com/3.0/lists"
  | PostCampaign _ datacenter _ _ _ _ =>
      "https://" ++ datacenter ++ ".api.mailchimp.com/3.0/campaigns"
  | PutCampaignContent _ datacenter campaignId _ =>
      "https://" ++ datacenter ++ ".api.mailchimp.com/3.0/campaigns/"
        ++ campaignId ++ "/content"
  | PostCampaignSend _ datacenter campaignId =>
      "https://" ++ datacenter ++ ".api.mailchimp.com/3.0/campaigns/"
        ++ campaignId ++ "/actions/send"
  end.

(** ** [src/services/mailchimpService.ts] *)

Module MailChimpService.

(** An instance holds only its [config]; the session map is the
    module-level [userSessions] of [World]. *)
Record t := { config : MailChimpConfig }.

Definition new (e : ProcessEnv) : t := {| config := getMailChimpConfig e |}.

(** [error.response?.data || error.message] *)
Definition diagnostic (err : AxiosError) : string :=
  or_else (response_data err) (axios_message err).

Definition exchangeCodeForToken (this : t) (code : string)
  : M MailChimpTokenResponse :=
  let* r := axios (PostOAuthToken (config this) code)
             (fun p => oauth_token p (config this) code) in
  match r with
  | inr data => ret data
  | inl err =>
      do console_error "Token exchange error:" (diagnostic err);
      throw {| message := "Failed to exchange code for token" |}
  end.

Definition getUserMetadata (this : t) (accessToken : string)
  : M MailChimpMetadata :=
  let* r := axios (GetMetadata accessToken) (fun p => oauth_metadata p accessToken) in
  match r with
  | inr data => ret data
  | inl err =>
      do console_error "Metadata fetch error:" (diagnostic err);
      throw {| message := "Failed to fetch user metadata" |}
  end.

Definition storeUserSession (this : t) (sessionId accessToken : string)
    (metadata : MailChimpMetadata) : M unit :=
  fun c w =>
    (Return tt,
     {| userSessions :=
          <[sessionId :=
              {| accessToken := accessToken;
                 metadata := metadata;
                 connectedAt := new_date c |}]> (userSessions w);
        outbound := outbound w;
        console := console w |}).

Definition getUserSession (this : t) (sessionId : string)
  : M (option UserSession) :=
  fun _ w => (Return (userSessions w !! sessionId), w).

Definition removeUserSession (this : t) (sessionId : string) : M unit :=
  fun _ w =>
    (Return tt,
     {| userSessions := delete sessionId (userSessions w);
        outbound := outbound w;
        console := console w |}).

Definition getLists (this : t) (accessToken datacenter : string)
  : M MailChimpListsApiResponse :=
  let* r := axios (GetLists accessToken datacenter)
             (fun p => api_lists p accessToken datacenter) in
  match r with
  | inr data => ret data
  | inl err =>
      do console_error "Lists fetch error:" (diagnostic err);
      throw {| message := "Failed to fetch email lists" |}
  end.

Definition createCampaign (this : t)
    (accessToken datacenter listId subject fromName replyTo : string)
  : M MailChimpCampaignApiResponse :=
  let* r := axios (PostCampaign accessToken datacenter listId subject fromName replyTo)
             (fun p => api_campaigns p accessToken datacenter listId subject
                         fromName replyTo) in
  match r with
  | inr data => ret data
  | inl err =>
      do console_error "Campaign creation error:" (diagnostic err);
      throw {| message := "Failed to create campaign" |}
  end.

Definition setCampaignContent (this : t)
    (accessToken datacenter campaignId htmlContent : string) : M unit :=
  let* r := axios (PutCampaignContent accessToken datacenter campaignId htmlContent)
             (fun p => api_campaign_content p accessToken datacenter campaignId
                         htmlContent) in
  match r with
  | inr _ => ret tt
  | inl err =>
      do console_error "Campaign content error:" (diagnostic err);
      throw {| message := "Failed to set campaign content" |}
  end.

Definition sendCampaign (this : t) (accessToken datacenter campaignId : string)
  : M unit :=
  let* r := axios (PostCampaignSend accessToken datacenter campaignId)
             (fun p => api_campaign_send p accessToken datacenter campaignId) in
  match r with
  | inr _ => ret tt
  | inl err =>
      do console_error "Campaign send error:" (diagnostic err);
      throw {| message := "Failed to send campaign" |}
  end.

End MailChimpService.

(** ** Express requests and responses *)

(** The parts of an Express request the handlers read: [req.ip],
    [req.headers] (names in lower case), [req.query] and the parsed JSON
    [req.body], whose fields are strings or absent, as [OAuthTokenRequest]
    and [CampaignRequest] type them. *)
Record Request := {
  ip : option string;
  headers : gmap string string;
  query : gmap string QueryValue;
  body : gmap string string;
}.

Inductive ResponseBody :=
| JsonBody (j : Json)
| RedirectTo (url : string).

Record Response := {
  status : nat;
  response_headers : list (string * string);
  response_body : ResponseBody;
}.

(** [res.json(j)], after an optional [res.status(code)] and the
    [res.setHeader] calls made so far. *)
Definition res_json (code : nat) (hdrs : list (string * string)) (j : Json)
  : M Response :=
  ret {| status := code; response_headers := hdrs; response_body := JsonBody j |}.

(** [res.redirect(url)]. *)
Definition res_redirect (url : string) : M Response :=
  ret {| status := 302; response_headers := []; response_body := RedirectTo url |}.

(** ** [src/routes/mailchimp.ts] *)

Module Router.
Section Routes.

(** [const mailchimpService = new MailChimpService()] of the router module. *)
Variable mailchimpService : MailChimpService.t.

Definition generateSessionId (req : Request) : M string :=
  let* c := ask in
  ret (js_string_of (ip req) ++ "-" ++ js_number_to_string (date_now c)
         ++ "-" ++ math_random_36 c).

Definition getSessionId (req : Request) : M string :=
  if truthy (headers req !! "x-session-id")
  then ret (default "" (headers req !! "x-session-id"))
  else generateSessionId req.

(** 1. [GET /api/mailchimp/connect] *)
Definition connect (req : Request) : M Response :=
  try_catch
    (res_json 200 []
       (JObj [("success", JBool true);
              ("data", JObj [("message", JStr "OAuth connection initiated")])]))
    (fun error =>
       res_json 500 []
         (JObj [("success", JBool false);
                ("message", JStr "Internal server error");
                ("data", JNull)])).

(** 2. [POST /api/mailchimp/oauth/token] *)
Definition oauth_token_handler (req : Request) : M Response :=
  try_catch
    (let code := body req !! "code" in
     if negb (truthy code) then
       res_json 400 []
         (JObj [("success", JBool false);
                ("message", JStr "Authorization code is required");
                ("data", JNull)])
     else
       let* tokenResponse :=
         MailChimpService.exchangeCodeForToken mailchimpService (default "" code) in
       let* metadata :=
         MailChimpService.getUserMetadata mailchimpService
           (access_token tokenResponse) in
       let* sessionId := getSessionId req in
       do MailChimpService.storeUserSession mailchimpService sessionId
            (access_token tokenResponse) metadata;
       res_json 200 [("X-Session-Id", sessionId)]
         (JObj [("success", JBool true);
                ("data",
                 JObj [("accountName", JStr (accountname metadata));
                       ("userEmail", JStr (email (login metadata)));
                       ("isConnected", JBool true)])]))
    (fun error =>
       do console_error "OAuth token exchange error:" (message error);
       res_json 500 []
         (JObj [("success", JBool false);
                ("message",
                 JStr (or_else (Some (message error))
                         "Failed to exchange OAuth token"));
                ("data", JNull)])).

(** 3. [GET /api/mailchimp/status] *)
Definition status_handler (req : Request) : M Response :=
  try_catch
    (let* sessionId := getSessionId req in
     let* session := MailChimpService.getUserSession mailchimpService sessionId in
     match session with
     | None =>
         res_json 200 []
           (JObj [("success", JBool true);
                  ("data", JObj [("isConnected", JBool false)])])
     | Some session =>
         res_json 200 []
           (JObj [("success", JBool true);
                  ("data",
                   JObj [("isConnected", JBool true);
                         ("accountName", JStr (accountname (metadata session)));
                         ("userEmail",
                          JStr (email (login (metadata session))))])])
     end)
    (fun error =>
       res_json 500 []
         (JObj [("success", JBool false);
                ("message", JStr "Internal server error");
                ("data", JNull)])).

(** 4. [GET /api/mailchimp/lists] *)
Definition lists_handler (req : Request) : M Response :=
  try_catch
    (let* sessionId := getSessionId req in
     let* session := MailChimpService.getUserSession mailchimpService sessionId in
     match session with
     | None =>
         res_json 401 []
           (JObj [("success", JBool false);
                  ("message", JStr "Not connected to MailChimp");
                  ("data", JNull)])
     | Some session =>
         let* listsResponse :=
           MailChimpService.getLists mailchimpService (accessToken session)
             (dc (metadata session)) in
         res_json 200 []
           (JObj [("success", JBool true);
                  ("data",
                   JObj [("lists",
                          JArr (map
                                  (fun l =>
                                     JObj [("id", JStr (list_id l));
                                           ("name", JStr (list_name l));
                                           ("stats",
                                            JObj [("member_count",
                                                   JNum (member_count (stats l)))])])
                                  (lists listsResponse)))])])
     end)
    (fun error =>
       do console_error "Lists fetch error:" (message error);
       res_json 500 []
         (JObj [("success", JBool false);
                ("message",
                 JStr (or_else (Some (message error)) "Failed to fetch email lists"));
                ("data", JNull)])).

(** 5. [POST /api/mailchimp/campaign/send] *)
Definition campaign_send (req : Request) : M Response :=
  try_catch
    (let listId := body req !! "listId" in
     let subject := body req !! "subject" in
     let content := body req !! "content" in
     let fromName := body req !! "fromName" in
     let replyTo := body req !! "replyTo" in
     if negb (truthy listId) || negb (truthy subject) || negb (truthy content)
        || negb (truthy fromName) || negb (truthy replyTo)
     then
       res_json 400 []
         (JObj [("success", JBool false);
                ("message",
                 JStr "Missing required fields: listId, subject, content, fromName, replyTo");
                ("data", JNull)])
     else
       let* sessionId := getSessionId req in
       let* session := MailChimpService.getUserSession mailchimpService sessionId in
       match session with
       | None =>
           res_json 401 []
             (JObj [("success", JBool false);
                    ("message", JStr "Not connected to MailChimp");
                    ("data", JNull)])
       | Some session =>
           let* campaign :=
             MailChimpService.createCampaign mailchimpService
               (accessToken session) (dc (metadata session))
               (default "" listId) (default "" subject)
               (default "" fromName) (default "" replyTo) in
           do MailChimpService.setCampaignContent mailchimpService
                (accessToken session) (dc (metadata session))
                (id campaign) (default "" content);
           do MailChimpService.sendCampaign mailchimpService
                (accessToken session) (dc (metadata session)) (id campaign);
           res_json 200 []
             (JObj [("success", JBool true);
                    ("data",
                     JObj [("campaignId", JStr (id campaign));
                           ("status", JStr "sent");
                           ("message", JStr "Campaign sent successfully")])])
       end)
    (fun error =>
       do console_error "Campaign send error:" (message error);
       res_json 500 []
         (JObj [("success", JBool false);
                ("message",
                 JStr (or_else (Some (message error)) "Failed to send campaign"));
                ("data", JNull)])).

(** 6. [POST /api/mailchimp/disconnect] *)
Definition disconnect (req : Request) : M Response :=
  try_catch
    (let* sessionId := getSessionId req in
     do MailChimpService.removeUserSession mailchimpService sessionId;
     res_json 200 []
       (JObj [("success", JBool true);
              ("data",
               JObj [("message", JStr "Successfully disconnected from MailChimp")])]))
    (fun error =>
       res_json 500 []
         (JObj [("success", JBool false);
                ("message", JStr "Internal server error");
                ("data", JNull)])).

End Routes.
End Router.

(** ** [src/index.ts] *)

Module Index.
Section App.

(** [const mailchimpService = new MailChimpService()] of the entry module. *)
Variable mailchimpService : MailChimpService.t.

Definition generateSessionId (req : Request) : M string :=
  let* c := ask in
  ret (js_string_of (ip req) ++ "-" ++ js_number_to_string (date_now c)
         ++ "-" ++ math_random_36 c).

(** [process.env.PORT || 3001] *)
Definition port (e : ProcessEnv) : string := or_else (PORT e) "3001".

(** [`${process.env.FRONTEND_URL || "http://localhost:8090"}/oauth-verify/mailchimp`] *)
Definition frontendCallbackUrl (e : ProcessEnv) : string :=
  or_else (FRONTEND_URL e) "http://localhost:8090" ++ "/oauth-verify/mailchimp".

(** [GET /oauth-verify/mailchimp]: the provider's redirect target. *)
Definition oauth_callback (req : Request) : M Response :=
  try_catch
    (let code := query req !! "code" in
     let error := query req !! "error" in
     let error_description := query req !! "error_description" in
     let* c := ask in
     if q_truthy error then
       do console_error "OAuth error from MailChimp:"
            (q_to_string (default QObj error) ++ " "
               ++ from_option q_to_string "undefined" error_description);
       res_redirect
         (frontendCallbackUrl (env c) ++ "?error="
            ++ encodeURIComponent (q_to_string (default QObj error))
            ++ "&error_description="
            ++ encodeURIComponent
                 (if q_truthy error_description
                  then q_to_string (default QObj error_description)
                  else "OAuth authorization failed"))
     else if negb (q_truthy code) || negb (q_is_string code) then
       res_redirect
         (frontendCallbackUrl (env c)
            ++ "?error=missing_code&error_description="
            ++ encodeURIComponent "Authorization code not received")
     else
       let code := q_to_string (default QObj code) in
       let* tokenResponse :=
         MailChimpService.exchangeCodeForToken mailchimpService code in
       let* metadata :=
         MailChimpService.getUserMetadata mailchimpService
           (access_token tokenResponse) in
       let* sessionId := generateSessionId req in
       do MailChimpService.storeUserSession mailchimpService sessionId
            (access_token tokenResponse) metadata;
       res_redirect
         (frontendCallbackUrl (env c) ++ "?success=true&session_id="
            ++ encodeURIComponent sessionId
            ++ "&account_name=" ++ encodeURIComponent (accountname metadata)
            ++ "&user_email=" ++ encodeURIComponent (email (login metadata))))
    (fun error =>
       do console_error "OAuth callback processing error:" (message error);
       let* c := ask in
       res_redirect
         (frontendCallbackUrl (env c)
            ++ "?error=processing_failed&error_description="
            ++ encodeURIComponent
                 (or_else (Some (message error))
                    "Failed to process OAuth callback"))).

(** [GET /]: health check. *)
Definition health (req : Request) : M Response :=
  let* c := ask in
  res_json 200 []
    (JObj [("message", JStr "MailChimp Backend API is running!");
           ("version", JStr "1.0.0");
           ("documentation",
            JStr ("http://localhost:" ++ port (env c) ++ "/api-docs"));
           ("endpoints",
            JArr [JStr "GET /oauth-verify/mailchimp (OAuth callback)";
                  JStr "GET /api/mailchimp/connect";
                  JStr "POST /api/mailchimp/oauth/token";
                  JStr "GET /api/mailchimp/status";
                  JStr "GET /api/mailchimp/lists";
                  JStr "POST /api/mailchimp/campaign/send";
                  JStr "POST /api/mailchimp/disconnect"])]).

(** Error-handling middleware. *)
Definition error_middleware (err : JsError) (req : Request) : M Response :=
  do console_error "Unhandled error:" (message err);
  res_json 500 []
    (JObj [("success", JBool false);
           ("message", JStr "Internal server error");
           ("data", JNull)]).

(** 404 handler. *)
Definition not_found (req : Request) : M Response :=
  res_json 404 []
    (JObj [("success", JBool false);
           ("message", JStr "Endpoint not found");
           ("data", JNull)]).

End App.
End Index.

(** ** The running application *)

(** The handler Express selects for a request. *)
Inductive Endpoint :=
| OAuthVerify          (* GET  /oauth-verify/mailchimp *)
| ApiConnect           (* GET  /api/mailchimp/connect *)
| ApiOAuthToken        (* POST /api/mailchimp/oauth/token *)
| ApiStatus            (* GET  /api/mailchimp/status *)
| ApiLists             (* GET  /api/mailchimp/lists *)
| ApiCampaignSend      (* POST /api/mailchimp/campaign/send *)
| ApiDisconnect        (* POST /api/mailchimp/disconnect *)
| Health               (* GET  / *)
| ErrorMiddleware (err : JsError)
| NotFound.

(** The two [MailChimpService] instances of the process: the one of
    [index.ts] and the one of [routes/mailchimp.ts]. *)
Record App := {
  index_service : MailChimpService.t;
  router_service : MailChimpService.t;
}.

Definition start (e : ProcessEnv) : App :=
  {| index_service := MailChimpService.new e;
     router_service := MailChimpService.new e |}.

Definition handle (app : App) (ep : Endpoint) (req : Request) : M Response :=
  match ep with
  | OAuthVerify => Index.oauth_callback (index_service app) req
  | ApiConnect => Router.connect req
  | ApiOAuthToken => Router.oauth_token_handler (router_service app) req
  | ApiStatus => Router.status_handler (router_service app) req
  | ApiLists => Router.lists_handler (router_service app) req
  | ApiCampaignSend => Router.campaign_send (router_service app) req
  | ApiDisconnect => Router.disconnect (router_service app) req
  | Health => Index.health req
  | ErrorMiddleware err => Index.error_middleware err req
  | NotFound => Index.not_found req
  end.

(** ** Observations used in the statements *)

(** First value bound to a key of a JSON object. *)
Fixpoint field (k : string) (fields : list (string * Json)) : option Json :=
  match fields with
  | [] => None
  | (k', v) :: r => if String.eqb k k' then Some v else field k r
  end.

(** The envelope [{ success: bool, message?: string, data: T | null }]:
    on success [data] is present and not null and there is no [message];
    on failure [message] is a string and [data] is [null]. *)
Definition is_envelope (j : Json) : bool :=
  match j with
  | JObj fs =>
      match field "success" fs with
      | Some (JBool true) =>
          match field "data" fs, field "message" fs with
          | Some JNull, _ => false
          | Some _, None => true
          | _, _ => false
          end
      | Some (JBool false) =>
          match field "data" fs, field "message" fs with
          | Some JNull, Some (JStr _) => true
          | _, _ => false
          end
      | _ => false
      end
  | _ => false
  end.

(** A response whose body is JSON in the envelope. *)
Definition response_is_envelope (r : Response) : bool :=
  match response_body r with
  | JsonBody j => is_envelope j
  | RedirectTo _ => false
  end.

(** The response a handler run gives; a run that lets an exception escape
    gives none. *)
Definition response_of {A} (r : Outcome A * World) : option A :=
  match r.1 with
  | Return a => Some a
  | Throw _ => None
  end.

(** A world with the given sessions, before any call of the run observed. *)
Definition world_of (sessions : gmap string UserSession) : World :=
  {| userSessions := sessions; outbound := []; console := [] |}.

(** "Empty or missing", for a body field typed [string]. *)
Definition empty_or_missing (o : option string) : Prop := o = None \/ o = Some "".

(** ** Scenario data *)

Module Scenario.

Definition process_env : ProcessEnv :=
  {| PORT := None; FRONTEND_URL := None; MAILCHIMP_CLIENT_ID := None;
     MAILCHIMP_CLIENT_SECRET := None; MAILCHIMP_REDIRECT_URI := None |}.

Definition token : MailChimpTokenResponse :=
  {| access_token := "tok_1"; token_type := "bearer"; expires_in := None;
     refresh_token := None; scope := None |}.

Definition acme : MailChimpMetadata :=
  {| dc := "us1"; role := "owner"; accountname := "Acme"; user_id := 42;
     login := {| email := "a@acme.com"; login_id := "7"; login_name := "a";
                 login_email := "a@acme.com" |};
     api_endpoint := "https://us1.api.mailchimp.com" |}.

Definition campaign : MailChimpCampaignApiResponse :=
  {| id := "cmp_9"; campaign_status := "save"; campaign_type := "regular";
     create_time := "2021-11-01T00:00:00+00:00";
     settings := {| subject_line := "Hello"; title := "Campaign - Hello";
                    from_name := "Acme"; reply_to := "a@acme.com" |} |}.

Definition rejection (text : string) : AxiosError :=
  {| response_data := Some text;
     axios_message := "Request failed with status code 400" |}.

(** A provider that accepts code ["abc123"] and answers every other call. *)
Definition accepting : Provider :=
  {| oauth_token := fun _ code =>
       if String.eqb code "abc123" then inr token
       else inl (rejection "invalid_grant");
     oauth_metadata := fun _ => inr acme;
     api_lists := fun _ _ => inr {| lists := []; total_items := 0 |};
     api_campaigns := fun _ _ _ _ _ _ => inr campaign;
     api_campaign_content := fun _ _ _ _ => inr tt;
     api_campaign_send := fun _ _ _ => inr tt |}.

(** The same provider, rejecting the metadata fetch with the given body. *)
Definition metadata_down (text : string) : Provider :=
  {| oauth_token := oauth_token accepting;
     oauth_metadata := fun _ => inl (rejection text);
     api_lists := api_lists accepting;
     api_campaigns := api_campaigns accepting;
     api_campaign_content := api_campaign_content accepting;
     api_campaign_send := api_campaign_send accepting |}.

(** The same provider, rejecting the content upload with the given body. *)
Definition content_down (text : string) : Provider :=
  {| oauth_token := oauth_token accepting;
     oauth_metadata := oauth_metadata accepting;
     api_lists := api_lists accepting;
     api_campaigns := api_campaigns accepting;
     api_campaign_content := fun _ _ _ _ => inl (rejection text);
     api_campaign_send := api_campaign_send accepting |}.

Definition ctx (p : Provider) : Ctx :=
  {| provider := p; env := process_env; date_now := 1635789012345;
     math_random_36 := "0.abc123"; new_date := 1635789012346 |}.

Definition app : App := start process_env.

Definition session : UserSession :=
  {| accessToken := "tok_1"; metadata := acme; connectedAt := 1635789012346 |}.

(** A request carrying only the [X-Session-Id] header. *)
Definition with_session (sid : string) : Request :=
  {| ip := Some "192.168.1.1"; headers := {[ "x-session-id" := sid ]};
     query := ∅; body := ∅ |}.

(** The provider's redirect back to the broker with a code. *)
Definition callback_request : Request :=
  {| ip := Some "192.168.1.1"; headers := ∅;
     query := {[ "code" := QStr "abc123" ]}; body := ∅ |}.

(** The frontend posting the code, with and without an [X-Session-Id] of
    its own. *)
Definition token_request : Request :=
  {| ip := Some "192.168.1.1"; headers := ∅; query := ∅;
     body := {[ "code" := "abc123" ]} |}.

Definition token_request_with_header : Request :=
  {| ip := Some "192.168.1.1";
     headers := {[ "x-session-id" := "chosen-by-client" ]}; query := ∅;
     body := {[ "code" := "abc123" ]} |}.

Definition draft_request (sid listId : string) : Request :=
  {| ip := Some "192.168.1.1"; headers := {[ "x-session-id" := sid ]};
     query := ∅;
     body := {[ "listId" := listId; "subject" := "x"; "content" := "x";
                "fromName" := "x"; "replyTo" := "x" ]} |}.

End Scenario.

(** ** Responses and values named in the statements *)

(** What [/status] answers when no record is stored. *)
Definition not_connected_status : Response :=
  {| status := 200;
     response_headers := [];
     response_body :=
       JsonBody
         (JObj [("success", JBool true);
                ("data", JObj [("isConnected", JBool false)])]) |}.

(** What [/lists] and [/campaign/send] answer when no record is stored. *)
Definition unauthorized : Response :=
  {| status := 401;
     response_headers := [];
     response_body :=
       JsonBody
         (JObj [("success", JBool false);
                ("message", JStr "Not connected to MailChimp");
                ("data", JNull)]) |}.

(** The body of the router's [catch] blocks. *)
Definition failure_500 (msg : string) : Response :=
  {| status := 500;
     response_headers := [];
     response_body :=
       JsonBody
         (JObj [("success", JBool false); ("message", JStr msg); ("data", JNull)]) |}.

(** The record [storeUserSession] writes for a token and its metadata. *)
Definition session_record (tok : MailChimpTokenResponse) (md : MailChimpMetadata)
    (c : Ctx) : UserSession :=
  {| accessToken := access_token tok; metadata := md; connectedAt := new_date c |}.

(** The text both [generateSessionId] helpers build: it depends on the
    peer address, the clock and the random source only. *)
Definition generated_session_id (req : Request) (c : Ctx) : string :=
  js_string_of (ip req) ++ "-" ++ js_number_to_string (date_now c)
    ++ "-" ++ math_random_36 c.

(** The redirect of the callback's [catch] block. *)
Definition processing_failed (e : ProcessEnv) (msg : string) : Response :=
  {| status := 302; response_headers := [];
     response_body :=
       RedirectTo
         (Index.frontendCallbackUrl e
            ++ "?error=processing_failed&error_description="
            ++ encodeURIComponent msg) |}.


(** Two answers of the provider that differ at most in the error carried. *)
Definition same_up_to_error {A} (x y : AxiosError + A) : Prop :=
  match x, y with
  | inr a, inr b => a = b
  | inl _, inl _ => True
  | _, _ => False
  end.

(** Two providers that accept the same requests with the same data and
    reject the same requests, possibly with different error bodies. *)
Record providers_agree (p q : Provider) : Prop := {
  agree_oauth_token :
    forall cfg code, same_up_to_error (oauth_token p cfg code) (oauth_token q cfg code);
  agree_oauth_metadata :
    forall t, same_up_to_error (oauth_metadata p t) (oauth_metadata q t);
  agree_api_lists :
    forall t d, same_up_to_error (api_lists p t d) (api_lists q t d);
  agree_api_campaigns :
    forall t d l s f r,
      same_up_to_error (api_campaigns p t d l s f r) (api_campaigns q t d l s f r);
  agree_api_campaign_content :
    forall t d i h,
      same_up_to_error (api_campaign_content p t d i h)
        (api_campaign_content q t d i h);
  agree_api_campaign_send :
    forall t d i,
      same_up_to_error (api_campaign_send p t d i) (api_campaign_send q t d i);
}.

(** The same surroundings with another provider behind them. *)
Definition with_provider (c : Ctx) (p : Provider) : Ctx :=
  {| provider := p; env := env c; date_now := date_now c;
     math_random_36 := math_random_36 c; new_date := new_date c |}.

(** What [/status] answers for a stored record. *)
Definition connected_status (md : MailChimpMetadata) : Response :=
  {| status := 200;
     response_headers := [];
     response_body :=
       JsonBody
         (JObj [("success", JBool true);
                ("data",
                 JObj [("isConnected", JBool true);
                       ("accountName", JStr (accountname md));
                       ("userEmail", JStr (email (login md)))])]) |}.

(** The record [session] stored under [sid] in world [w] is seen by every
    gated endpoint of the application, each reached with [sid] in the
    [X-Session-Id] header: [/status] reports it, [/lists] and
    [/campaign/send] (given a complete draft) call the provider with its
    token and datacenter, and [/disconnect] removes it, after which
    [/status] reports no connection. *)
Definition visible_to_gated_endpoints (app : App) (sid : string)
    (session : UserSession) (w : World) : Prop :=
  forall (req : Request) (c : Ctx),
    headers req !! "x-session-id" = Some sid ->
    handle app ApiStatus req c w = (Return (connected_status (metadata session)), w)
    /\ outbound (handle app ApiLists req c w).2
       = (outbound w ++ [GetLists (accessToken session) (dc (metadata session))])%list
    /\ (forall listId subject content fromName replyTo,
          body req !! "listId" = Some listId -> listId <> "" ->
          body req !! "subject" = Some subject -> subject <> "" ->
          body req !! "content" = Some content -> content <> "" ->
          body req !! "fromName" = Some fromName -> fromName <> "" ->
          body req !! "replyTo" = Some replyTo -> replyTo <> "" ->
          exists rest,
            outbound (handle app ApiCampaignSend req c w).2
            = (outbound w
                 ++ PostCampaign (accessToken session) (dc (metadata session))
                      listId subject fromName replyTo :: rest)%list)
    /\ (let after := (handle app ApiDisconnect req c w).2 in
        userSessions after = delete sid (userSessions w)
        /\ handle app ApiStatus req c after = (Return not_connected_status, after)).

(** ** Further observations *)

(** The token an outbound request carries in its [Authorization: Bearer]
    header; the token exchange carries none. *)
Definition outbound_bearer (o : Outbound) : option string :=
  match o with
  | PostOAuthToken _ _ => None
  | GetMetadata accessToken => Some accessToken
  | GetLists accessToken _ => Some accessToken
  | PostCampaign accessToken _ _ _ _ _ => Some accessToken
  | PutCampaignContent accessToken _ _ _ => Some accessToken
  | PostCampaignSend accessToken _ _ => Some accessToken
  end.

(** The data API of one datacenter. *)
Definition api_base (datacenter : string) : string :=
  "https://" ++ datacenter ++ ".api.mailchimp.com/3.0/".

(** A request to the data API of [datacenter] bearing [accessToken]. *)
Definition routed_to (datacenter accessToken : string) (o : Outbound) : Prop :=
  String.prefix (api_base datacenter) (outbound_url o) = true
  /\ outbound_bearer o = Some accessToken.

(** Every character is URI-unreserved or a percent sign: in particular
    none of [& = ? # / + space]. *)
Fixpoint uri_safe (s : string) : bool :=
  match s with
  | EmptyString => true
  | String ch r => (is_uri_unreserved ch || Ascii.eqb ch "%") && uri_safe r
  end.

(** The world after one service call: the call recorded, the given lines
    logged, the session map as it was. *)
Definition after_call (w : World) (call : Outbound)
    (logged : list (string * string)) : World :=
  {| userSessions := userSessions w;
     outbound := outbound w ++ [call];
     console := console w ++ logged |}.

(** The JSON the lists endpoint gives for one list of the provider. *)
Definition list_summary (l : MailChimpList) : Json :=
  JObj [("id", JStr (list_id l));
        ("name", JStr (list_name l));
        ("stats", JObj [("member_count", JNum (member_count (stats l)))])].

(** ** Further scenario data *)

Module Cases.

Definition newsletter : MailChimpList :=
  {| list_id := "l1"; list_name := "Newsletter";
     stats := {| member_count := 120 |} |}.

Definition customers : MailChimpList :=
  {| list_id := "l2"; list_name := "Customers";
     stats := {| member_count := 7 |} |}.

(** [Scenario.accepting] with the answer to the lists request replaced. *)
Definition lists_answer (r : AxiosError + MailChimpListsApiResponse) : Provider :=
  {| oauth_token := oauth_token Scenario.accepting;
     oauth_metadata := oauth_metadata Scenario.accepting;
     api_lists := fun _ _ => r;
     api_campaigns := api_campaigns Scenario.accepting;
     api_campaign_content := api_campaign_content Scenario.accepting;
     api_campaign_send := api_campaign_send Scenario.accepting |}.

(** [Scenario.accepting], rejecting the campaign creation. *)
Definition create_down (text : string) : Provider :=
  {| oauth_token := oauth_token Scenario.accepting;
     oauth_metadata := oauth_metadata Scenario.accepting;
     api_lists := api_lists Scenario.accepting;
     api_campaigns := fun _ _ _ _ _ _ => inl (Scenario.rejection text);
     api_campaign_content := api_campaign_content Scenario.accepting;
     api_campaign_send := api_campaign_send Scenario.accepting |}.

(** [Scenario.accepting], rejecting the send action. *)
Definition send_down (text : string) : Provider :=
  {| oauth_token := oauth_token Scenario.accepting;
     oauth_metadata := oauth_metadata Scenario.accepting;
     api_lists := api_lists Scenario.accepting;
     api_campaigns := api_campaigns Scenario.accepting;
     api_campaign_content := api_campaign_content Scenario.accepting;
     api_campaign_send := fun _ _ _ => inl (Scenario.rejection text) |}.

(** An account whose name holds query-string delimiters. *)
Definition ampersand_account : MailChimpMetadata :=
  {| dc := "us1"; role := "owner"; accountname := "Acme & Sons=1"; user_id := 42;
     login := {| email := "a@acme.com"; login_id := "7"; login_name := "a";
                 login_email := "a@acme.com" |};
     api_endpoint := "https://us1.api.mailchimp.com" |}.

(** [Scenario.accepting] with the metadata answer replaced. *)
Definition metadata_answer (md : MailChimpMetadata) : Provider :=
  {| oauth_token := oauth_token Scenario.accepting;
     oauth_metadata := fun _ => inr md;
     api_lists := api_lists Scenario.accepting;
     api_campaigns := api_campaigns Scenario.accepting;
     api_campaign_content := api_campaign_content Scenario.accepting;
     api_campaign_send := api_campaign_send Scenario.accepting |}.

(** A world holding the session of [Scenario.session] under ["s1"]. *)
Definition connected : World := world_of {[ "s1" := Scenario.session ]}.

End Cases.

(** * Properties *)

(** ** Generic facts *)

Lemma truthy_Some_iff (s : string) : truthy (Some s) = true <-> s <> "".
Proof.
  unfold truthy. destruct (String.eqb_spec s ""); simpl; split; congruence.
Qed.

Lemma truthy_true_inv (o : option string) :
  truthy o = true -> exists s, o = Some s /\ s <> "".
Proof.
  destruct o as [s|]; [|discriminate].
  intros H. exists s. split; [done | by apply truthy_Some_iff].
Qed.

Lemma truthy_empty_or_missing (o : option string) :
  empty_or_missing o -> truthy o = false.
Proof. by intros [-> | ->]. Qed.

Lemma or_else_Some_nonempty (s d : string) : s <> "" -> or_else (Some s) d = s.
Proof.
  intros H. unfold or_else. by rewrite (proj2 (truthy_Some_iff s) H).
Qed.

Lemma getSessionId_header (req : Request) (sid : string) (c : Ctx) (w : World) :
  headers req !! "x-session-id" = Some sid -> sid <> "" ->
  Router.getSessionId req c w = (Return sid, w).
Proof.
  intros Hh Hne. unfold Router.getSessionId.
  rewrite Hh, (proj2 (truthy_Some_iff sid) Hne). reflexivity.
Qed.

(** [getSessionId] never throws and never touches the world. *)
Lemma getSessionId_pure (req : Request) (c : Ctx) (w : World) :
  exists sid, Router.getSessionId req c w = (Return sid, w).
Proof.
  unfold Router.getSessionId.
  destruct (truthy (headers req !! "x-session-id")); eexists; reflexivity.
Qed.

Ltac run_handler :=
  cbv beta iota zeta delta
    [try_catch bind ret throw ask console_error axios res_json res_redirect
     MailChimpService.exchangeCodeForToken MailChimpService.getUserMetadata
     MailChimpService.storeUserSession MailChimpService.getUserSession
     MailChimpService.removeUserSession MailChimpService.getLists
     MailChimpService.createCampaign MailChimpService.setCampaignContent
     MailChimpService.sendCampaign negb];
  cbn [userSessions outbound console message fst snd default from_option
       Datatypes.id].

(** ** Session store *)

(** C7. [removeUserSession] is idempotent: it always returns normally,
    removing twice leaves the same world as removing once, and removing an
    identifier that is not in the store leaves the world as it was. *)
Theorem removeUserSession_idempotent
    (this : MailChimpService.t) (sessionId : string) (c : Ctx) (w : World) :
  let once := MailChimpService.removeUserSession this sessionId c w in
  let twice := MailChimpService.removeUserSession this sessionId c once.2 in
  once.1 = Return tt /\ twice.1 = Return tt /\ twice.2 = once.2
  /\ (userSessions w !! sessionId = None -> once.2 = w).
Proof.
  simpl. repeat split.
  - f_equal. apply delete_delete_eq.
  - intros Habsent. destruct w as [s o l]; simpl in *.
    f_equal. by apply delete_id.
Qed.

Lemma removeUserSession_idempotent_witness :
  userSessions (world_of ∅) !! "never-created" = None
  /\ (MailChimpService.removeUserSession (router_service Scenario.app)
        "never-created" (Scenario.ctx Scenario.accepting) (world_of ∅)).2
     = world_of ∅.
Proof.
  split; [reflexivity |].
  apply (removeUserSession_idempotent (router_service Scenario.app)
           "never-created" (Scenario.ctx Scenario.accepting) (world_of ∅)).
  reflexivity.
Defined.

(** ** Campaign send *)

(** C5. A campaign-send request in which one of [listId], [subject],
    [content], [fromName], [replyTo] is empty or missing is answered with
    the 400 validation error, and the world is left as it was: no outbound
    call is made. *)
Theorem campaign_send_rejects_incomplete_draft
    (svc : MailChimpService.t) (req : Request) (c : Ctx) (w : World) :
  empty_or_missing (body req !! "listId")
  \/ empty_or_missing (body req !! "subject")
  \/ empty_or_missing (body req !! "content")
  \/ empty_or_missing (body req !! "fromName")
  \/ empty_or_missing (body req !! "replyTo") ->
  Router.campaign_send svc req c w =
    (Return
       {| status := 400;
          response_headers := [];
          response_body :=
            JsonBody
              (JObj [("success", JBool false);
                     ("message",
                      JStr "Missing required fields: listId, subject, content, fromName, replyTo");
                     ("data", JNull)]) |},
     w).
Proof.
  intros H. unfold Router.campaign_send.
  assert (negb (truthy (body req !! "listId"))
          || negb (truthy (body req !! "subject"))
          || negb (truthy (body req !! "content"))
          || negb (truthy (body req !! "fromName"))
          || negb (truthy (body req !! "replyTo")) = true) as ->.
  { destruct H as [H|[H|[H|[H|H]]]];
      rewrite (truthy_empty_or_missing _ H); simpl;
      rewrite ?orb_true_r; reflexivity. }
  reflexivity.
Qed.

Lemma campaign_send_rejects_incomplete_draft_witness :
  Router.campaign_send (router_service Scenario.app)
    (Scenario.draft_request "s1" "") (Scenario.ctx Scenario.accepting)
    (world_of {[ "s1" := Scenario.session ]})
  = (Return
       {| status := 400;
          response_headers := [];
          response_body :=
            JsonBody
              (JObj [("success", JBool false);
                     ("message",
                      JStr "Missing required fields: listId, subject, content, fromName, replyTo");
                     ("data", JNull)]) |},
     world_of {[ "s1" := Scenario.session ]}).
Proof.
  apply (campaign_send_rejects_incomplete_draft (router_service Scenario.app)
           (Scenario.draft_request "s1" "")).
  left. right. vm_compute. reflexivity.
Defined.

Section CampaignSend.

Variables (svc : MailChimpService.t) (req : Request) (c : Ctx) (w : World).
Variables (sid listId subject content fromName replyTo : string).
Variable session : UserSession.

Hypothesis draft_listId : body req !! "listId" = Some listId.
Hypothesis draft_subject : body req !! "subject" = Some subject.
Hypothesis draft_content : body req !! "content" = Some content.
Hypothesis draft_fromName : body req !! "fromName" = Some fromName.
Hypothesis draft_replyTo : body req !! "replyTo" = Some replyTo.
Hypothesis listId_nonempty : listId <> "".
Hypothesis subject_nonempty : subject <> "".
Hypothesis content_nonempty : content <> "".
Hypothesis fromName_nonempty : fromName <> "".
Hypothesis replyTo_nonempty : replyTo <> "".
Hypothesis session_id : (Router.getSessionId req c w).1 = Return sid.
Hypothesis established : userSessions w !! sid = Some session.

(** With a complete draft and an established session the handler gets as
    far as [createCampaign]. *)
Lemma campaign_send_reaches_create :
  Router.campaign_send svc req c w =
    try_catch
      (let* campaign :=
         MailChimpService.createCampaign svc (accessToken session)
           (dc (metadata session)) listId subject fromName replyTo in
       do MailChimpService.setCampaignContent svc (accessToken session)
            (dc (metadata session)) (id campaign) content;
       do MailChimpService.sendCampaign svc (accessToken session)
            (dc (metadata session)) (id campaign);
       res_json 200 []
         (JObj [("success", JBool true);
                ("data",
                 JObj [("campaignId", JStr (id campaign));
                       ("status", JStr "sent");
                       ("message", JStr "Campaign sent successfully")])]))
      (fun error =>
         do console_error "Campaign send error:" (message error);
         res_json 500 []
           (JObj [("success", JBool false);
                  ("message",
                   JStr (or_else (Some (message error)) "Failed to send campaign"));
                  ("data", JNull)]))
      c w.
Proof.
  unfold Router.campaign_send.
  rewrite draft_listId, draft_subject, draft_content, draft_fromName,
    draft_replyTo.
  rewrite !(proj2 (truthy_Some_iff _)) by assumption. simpl.
  destruct (getSessionId_pure req c w) as [sid' Hsid].
  rewrite Hsid in session_id. simpl in session_id.
  injection session_id as ->.
  unfold try_catch, bind at 1 2. rewrite Hsid.
  unfold MailChimpService.getUserSession; simpl. rewrite established.
  reflexivity.
Qed.

(** C3. With an established session and a draft whose five fields are all
    non-empty, when the provider accepts all three steps the handler makes
    exactly three outbound calls, in the order create, content, send, and
    answers 200 with [campaignId] the id the create call returned, [status]
    ["sent"] and [message] ["Campaign sent successfully"]. *)
Theorem campaign_send_three_calls_in_order (campaign : MailChimpCampaignApiResponse) :
  api_campaigns (provider c) (accessToken session) (dc (metadata session))
    listId subject fromName replyTo = inr campaign ->
  api_campaign_content (provider c) (accessToken session) (dc (metadata session))
    (id campaign) content = inr tt ->
  api_campaign_send (provider c) (accessToken session) (dc (metadata session))
    (id campaign) = inr tt ->
  Router.campaign_send svc req c w =
    (Return
       {| status := 200;
          response_headers := [];
          response_body :=
            JsonBody
              (JObj [("success", JBool true);
                     ("data",
                      JObj [("campaignId", JStr (id campaign));
                            ("status", JStr "sent");
                            ("message", JStr "Campaign sent successfully")])]) |},
     {| userSessions := userSessions w;
        outbound :=
          outbound w ++
            [PostCampaign (accessToken session) (dc (metadata session))
               listId subject fromName replyTo;
             PutCampaignContent (accessToken session) (dc (metadata session))
               (id campaign) content;
             PostCampaignSend (accessToken session) (dc (metadata session))
               (id campaign)];
        console := console w |}).
Proof.
  intros Hcreate Hcontent Hsend.
  rewrite campaign_send_reaches_create.
  run_handler. rewrite Hcreate. run_handler. rewrite Hcontent. run_handler.
  rewrite Hsend. run_handler.
  rewrite <- !app_assoc. reflexivity.
Qed.

(** C4. When the create call succeeds and the content call fails, the
    handler answers 500 with the content step's error message; the outbound
    calls of the run are exactly one create and one content call: no send
    call and no call that would delete the campaign. The session map is
    untouched. *)
Theorem campaign_send_content_failure_stops
    (campaign : MailChimpCampaignApiResponse) (err : AxiosError) :
  api_campaigns (provider c) (accessToken session) (dc (metadata session))
    listId subject fromName replyTo = inr campaign ->
  api_campaign_content (provider c) (accessToken session) (dc (metadata session))
    (id campaign) content = inl err ->
  Router.campaign_send svc req c w =
    (Return
       {| status := 500;
          response_headers := [];
          response_body :=
            JsonBody
              (JObj [("success", JBool false);
                     ("message", JStr "Failed to set campaign content");
                     ("data", JNull)]) |},
     {| userSessions := userSessions w;
        outbound :=
          outbound w ++
            [PostCampaign (accessToken session) (dc (metadata session))
               listId subject fromName replyTo;
             PutCampaignContent (accessToken session) (dc (metadata session))
               (id campaign) content];
        console :=
          console w ++
            [("Campaign content error:", MailChimpService.diagnostic err);
             ("Campaign send error:", "Failed to set campaign content")] |}).
Proof.
  intros Hcreate Hcontent.
  rewrite campaign_send_reaches_create.
  run_handler. rewrite Hcreate. run_handler. rewrite Hcontent. run_handler.
  rewrite (or_else_Some_nonempty "Failed to set campaign content") by done.
  rewrite <- !app_assoc. reflexivity.
Qed.

End CampaignSend.

Lemma campaign_send_three_calls_in_order_witness :
  Router.campaign_send (router_service Scenario.app)
    (Scenario.draft_request "s1" "list_1") (Scenario.ctx Scenario.accepting)
    (world_of {[ "s1" := Scenario.session ]})
  = (Return
       {| status := 200;
          response_headers := [];
          response_body :=
            JsonBody
              (JObj [("success", JBool true);
                     ("data",
                      JObj [("campaignId", JStr "cmp_9");
                            ("status", JStr "sent");
                            ("message", JStr "Campaign sent successfully")])]) |},
     {| userSessions := {[ "s1" := Scenario.session ]};
        outbound :=
          [PostCampaign "tok_1" "us1" "list_1" "x" "x" "x";
           PutCampaignContent "tok_1" "us1" "cmp_9" "x";
           PostCampaignSend "tok_1" "us1" "cmp_9"];
        console := [] |}).
Proof.
  refine (campaign_send_three_calls_in_order (router_service Scenario.app)
            (Scenario.draft_request "s1" "list_1")
            (Scenario.ctx Scenario.accepting)
            (world_of {[ "s1" := Scenario.session ]})
            "s1" "list_1" "x" "x" "x" "x" Scenario.session
            _ _ _ _ _ _ _ _ _ _ _ _ Scenario.campaign _ _ _);
    solve [ vm_compute; reflexivity | discriminate ].
Defined.

Lemma campaign_send_content_failure_stops_witness :
  Router.campaign_send (router_service Scenario.app)
    (Scenario.draft_request "s1" "list_1")
    (Scenario.ctx (Scenario.content_down "template invalid"))
    (world_of {[ "s1" := Scenario.session ]})
  = (Return
       {| status := 500;
          response_headers := [];
          response_body :=
            JsonBody
              (JObj [("success", JBool false);
                     ("message", JStr "Failed to set campaign content");
                     ("data", JNull)]) |},
     {| userSessions := {[ "s1" := Scenario.session ]};
        outbound :=
          [PostCampaign "tok_1" "us1" "list_1" "x" "x" "x";
           PutCampaignContent "tok_1" "us1" "cmp_9" "x"];
        console :=
          [("Campaign content error:", "template invalid");
           ("Campaign send error:", "Failed to set campaign content")] |}).
Proof.
  refine (campaign_send_content_failure_stops (router_service Scenario.app)
            (Scenario.draft_request "s1" "list_1")
            (Scenario.ctx (Scenario.content_down "template invalid"))
            (world_of {[ "s1" := Scenario.session ]})
            "s1" "list_1" "x" "x" "x" "x" Scenario.session
            _ _ _ _ _ _ _ _ _ _ _ _
            Scenario.campaign (Scenario.rejection "template invalid") _ _);
    solve [ vm_compute; reflexivity | discriminate ].
Defined.

(** ** Gated endpoints without a session *)

Lemma status_absent (svc : MailChimpService.t) (req : Request) (c : Ctx)
    (w : World) (sid : string) :
  (Router.getSessionId req c w).1 = Return sid ->
  userSessions w !! sid = None ->
  Router.status_handler svc req c w = (Return not_connected_status, w).
Proof.
  intros Hsid Habsent.
  destruct (getSessionId_pure req c w) as [sid' Hsid'].
  rewrite Hsid' in Hsid. simpl in Hsid. injection Hsid as ->.
  unfold Router.status_handler. run_handler. rewrite Hsid'. run_handler.
  rewrite Habsent. reflexivity.
Qed.

Lemma lists_absent (svc : MailChimpService.t) (req : Request) (c : Ctx)
    (w : World) (sid : string) :
  (Router.getSessionId req c w).1 = Return sid ->
  userSessions w !! sid = None ->
  Router.lists_handler svc req c w = (Return unauthorized, w).
Proof.
  intros Hsid Habsent.
  destruct (getSessionId_pure req c w) as [sid' Hsid'].
  rewrite Hsid' in Hsid. simpl in Hsid. injection Hsid as ->.
  unfold Router.lists_handler. run_handler. rewrite Hsid'. run_handler.
  rewrite Habsent. reflexivity.
Qed.

Lemma getSessionId_sessions_irrelevant (req : Request) (c : Ctx) (w w' : World) :
  (Router.getSessionId req c w).1 = (Router.getSessionId req c w').1.
Proof.
  unfold Router.getSessionId.
  destruct (truthy (headers req !! "x-session-id")); reflexivity.
Qed.

Lemma getSessionId_at (req : Request) (c : Ctx) (w w' : World) (sid : string) :
  (Router.getSessionId req c w).1 = Return sid ->
  Router.getSessionId req c w' = (Return sid, w').
Proof.
  intros Hsid. destruct (getSessionId_pure req c w') as [sid' Hsid'].
  rewrite (getSessionId_sessions_irrelevant req c w w'), Hsid' in Hsid.
  simpl in Hsid. by injection Hsid as ->.
Qed.

Lemma disconnect_removes (svc : MailChimpService.t) (req : Request) (c : Ctx)
    (w : World) (sid : string) :
  (Router.getSessionId req c w).1 = Return sid ->
  (Router.disconnect svc req c w).2
  = (MailChimpService.removeUserSession svc sid c w).2.
Proof.
  intros Hsid. unfold Router.disconnect. run_handler.
  erewrite getSessionId_at by exact Hsid. reflexivity.
Qed.

(** C6. Whatever identifier a gated request resolves to, if no record is
    stored under it then [/status] answers 200 with [isConnected: false]
    and [/lists] answers the 401 error, both without any outbound call or
    state change; and these are the answers both when the identifier was
    never stored and when [/disconnect] has removed it. *)
Theorem absent_session_same_response
    (svc : MailChimpService.t) (req : Request) (c : Ctx) (w : World)
    (sid : string) :
  (Router.getSessionId req c w).1 = Return sid ->
  (userSessions w !! sid = None ->
     Router.status_handler svc req c w = (Return not_connected_status, w)
     /\ Router.lists_handler svc req c w = (Return unauthorized, w))
  /\ (forall (req0 : Request) (c0 : Ctx) (w0 : World),
        (Router.getSessionId req0 c0 w0).1 = Return sid ->
        let removed := (Router.disconnect svc req0 c0 w0).2 in
        Router.status_handler svc req c removed
          = (Return not_connected_status, removed)
        /\ Router.lists_handler svc req c removed
          = (Return unauthorized, removed)).
Proof.
  intros Hsid. split.
  - intros Habsent. split.
    + by apply status_absent with sid.
    + by apply lists_absent with sid.
  - intros req0 c0 w0 Hsid0 removed.
    assert ((Router.getSessionId req c removed).1 = Return sid) as Hsid'.
    { by rewrite (getSessionId_sessions_irrelevant req c removed w). }
    assert (userSessions removed !! sid = None) as Habsent.
    { unfold removed. rewrite (disconnect_removes svc req0 c0 w0 sid Hsid0).
      apply lookup_delete_eq. }
    split.
    + by apply status_absent with sid.
    + by apply lists_absent with sid.
Qed.

Lemma absent_session_same_response_witness :
  let c := Scenario.ctx Scenario.accepting in
  let svc := router_service Scenario.app in
  let removed :=
    (Router.disconnect svc (Scenario.with_session "s1") c
       (world_of {[ "s1" := Scenario.session ]})).2 in
  Router.status_handler svc (Scenario.with_session "s1") c (world_of ∅)
  = (Return not_connected_status, world_of ∅)
  /\ Router.status_handler svc (Scenario.with_session "s1") c removed
     = (Return not_connected_status, removed)
  /\ Router.lists_handler svc (Scenario.with_session "s1") c removed
     = (Return unauthorized, removed).
Proof.
  intros c svc removed.
  assert ((Router.getSessionId (Scenario.with_session "s1") c (world_of ∅)).1
          = Return "s1") as Hsid by (vm_compute; reflexivity).
  pose proof (absent_session_same_response svc (Scenario.with_session "s1") c
                (world_of ∅) "s1" Hsid) as [Hnever Hremoved].
  split.
  - apply Hnever. vm_compute. reflexivity.
  - apply (Hremoved (Scenario.with_session "s1") c
             (world_of {[ "s1" := Scenario.session ]})).
    vm_compute. reflexivity.
Defined.

(** ** The two OAuth entry points, case by case *)

Section TokenEndpoint.

Variables (svc : MailChimpService.t) (req : Request) (c : Ctx) (w : World).

Lemma token_code_missing :
  truthy (body req !! "code") = false ->
  Router.oauth_token_handler svc req c w =
    (Return
       {| status := 400;
          response_headers := [];
          response_body :=
            JsonBody
              (JObj [("success", JBool false);
                     ("message", JStr "Authorization code is required");
                     ("data", JNull)]) |},
     w).
Proof.
  intros H. unfold Router.oauth_token_handler. rewrite H. reflexivity.
Qed.

Variable code : string.
Hypothesis code_present : body req !! "code" = Some code.
Hypothesis code_nonempty : code <> "".

Lemma token_exchange_rejected (err : AxiosError) :
  oauth_token (provider c) (MailChimpService.config svc) code = inl err ->
  Router.oauth_token_handler svc req c w =
    (Return (failure_500 "Failed to exchange code for token"),
     {| userSessions := userSessions w;
        outbound := outbound w ++ [PostOAuthToken (MailChimpService.config svc) code];
        console :=
          console w ++
            [("Token exchange error:", MailChimpService.diagnostic err);
             ("OAuth token exchange error:", "Failed to exchange code for token")] |}).
Proof.
  intros Htok. unfold Router.oauth_token_handler.
  rewrite code_present, (proj2 (truthy_Some_iff code) code_nonempty).
  run_handler. rewrite Htok. run_handler.
  rewrite (or_else_Some_nonempty "Failed to exchange code for token") by done.
  rewrite <- !app_assoc. reflexivity.
Qed.

Lemma token_metadata_rejected (tok : MailChimpTokenResponse) (err : AxiosError) :
  oauth_token (provider c) (MailChimpService.config svc) code = inr tok ->
  oauth_metadata (provider c) (access_token tok) = inl err ->
  Router.oauth_token_handler svc req c w =
    (Return (failure_500 "Failed to fetch user metadata"),
     {| userSessions := userSessions w;
        outbound :=
          outbound w ++
            [PostOAuthToken (MailChimpService.config svc) code;
             GetMetadata (access_token tok)];
        console :=
          console w ++
            [("Metadata fetch error:", MailChimpService.diagnostic err);
             ("OAuth token exchange error:", "Failed to fetch user metadata")] |}).
Proof.
  intros Htok Hmd. unfold Router.oauth_token_handler.
  rewrite code_present, (proj2 (truthy_Some_iff code) code_nonempty).
  run_handler. rewrite Htok. run_handler. rewrite Hmd. run_handler.
  rewrite (or_else_Some_nonempty "Failed to fetch user metadata") by done.
  rewrite <- !app_assoc. reflexivity.
Qed.

Lemma token_established (tok : MailChimpTokenResponse) (md : MailChimpMetadata)
    (sid : string) :
  oauth_token (provider c) (MailChimpService.config svc) code = inr tok ->
  oauth_metadata (provider c) (access_token tok) = inr md ->
  (Router.getSessionId req c w).1 = Return sid ->
  Router.oauth_token_handler svc req c w =
    (Return
       {| status := 200;
          response_headers := [("X-Session-Id", sid)];
          response_body :=
            JsonBody
              (JObj [("success", JBool true);
                     ("data",
                      JObj [("accountName", JStr (accountname md));
                            ("userEmail", JStr (email (login md)));
                            ("isConnected", JBool true)])]) |},
     {| userSessions := <[sid := session_record tok md c]> (userSessions w);
        outbound :=
          outbound w ++
            [PostOAuthToken (MailChimpService.config svc) code;
             GetMetadata (access_token tok)];
        console := console w |}).
Proof.
  intros Htok Hmd Hsid. unfold Router.oauth_token_handler.
  rewrite code_present, (proj2 (truthy_Some_iff code) code_nonempty).
  run_handler. rewrite Htok. run_handler. rewrite Hmd. run_handler.
  erewrite getSessionId_at by exact Hsid. run_handler.
  rewrite <- !app_assoc. reflexivity.
Qed.

End TokenEndpoint.

Lemma index_generateSessionId_eq (req : Request) (c : Ctx) (w : World) :
  Index.generateSessionId req c w = (Return (generated_session_id req c), w).
Proof. reflexivity. Qed.

Lemma router_generateSessionId_eq (req : Request) (c : Ctx) (w : World) :
  Router.generateSessionId req c w = (Return (generated_session_id req c), w).
Proof. reflexivity. Qed.

Lemma getSessionId_no_header (req : Request) (c : Ctx) (w : World) :
  truthy (headers req !! "x-session-id") = false ->
  Router.getSessionId req c w = (Return (generated_session_id req c), w).
Proof. intros H. unfold Router.getSessionId. rewrite H. reflexivity. Qed.

Lemma append_nonempty_r (a b : string) : b <> "" -> a ++ b <> "".
Proof. intros Hb. destruct a; simpl; [done | discriminate]. Qed.

Lemma generated_session_id_nonempty (req : Request) (c : Ctx) :
  generated_session_id req c <> "".
Proof. unfold generated_session_id. by apply append_nonempty_r. Qed.

Section CallbackEndpoint.

Variables (svc : MailChimpService.t) (req : Request) (c : Ctx) (w : World).

Lemma callback_provider_error :
  q_truthy (query req !! "error") = true ->
  exists url,
    Index.oauth_callback svc req c w =
      (Return {| status := 302; response_headers := [];
                 response_body := RedirectTo url |},
       {| userSessions := userSessions w;
          outbound := outbound w;
          console :=
            console w ++
              [("OAuth error from MailChimp:",
                q_to_string (default QObj (query req !! "error")) ++ " "
                  ++ from_option q_to_string "undefined"
                       (query req !! "error_description"))] |}).
Proof.
  intros H. unfold Index.oauth_callback. run_handler. rewrite H. run_handler.
  eexists. reflexivity.
Qed.

Lemma callback_code_missing :
  q_truthy (query req !! "error") = false ->
  negb (q_truthy (query req !! "code")) || negb (q_is_string (query req !! "code"))
    = true ->
  Index.oauth_callback svc req c w =
    (Return
       {| status := 302; response_headers := [];
          response_body :=
            RedirectTo
              (Index.frontendCallbackUrl (env c)
                 ++ "?error=missing_code&error_description="
                 ++ encodeURIComponent "Authorization code not received") |},
     w).
Proof.
  intros He Hc. unfold Index.oauth_callback. run_handler. rewrite He.
  fold (negb (q_truthy (query req !! "code"))).
  fold (negb (q_is_string (query req !! "code"))).
  rewrite Hc. reflexivity.
Qed.

Variable code : string.
Hypothesis no_provider_error : q_truthy (query req !! "error") = false.
Hypothesis code_present : query req !! "code" = Some (QStr code).
Hypothesis code_nonempty : code <> "".

Lemma callback_code_accepted :
  negb (q_truthy (query req !! "code")) || negb (q_is_string (query req !! "code"))
    = false.
Proof.
  rewrite code_present. simpl.
  destruct (String.eqb_spec code ""); [done | reflexivity].
Qed.

Lemma callback_exchange_rejected (err : AxiosError) :
  oauth_token (provider c) (MailChimpService.config svc) code = inl err ->
  Index.oauth_callback svc req c w =
    (Return (processing_failed (env c) "Failed to exchange code for token"),
     {| userSessions := userSessions w;
        outbound := outbound w ++ [PostOAuthToken (MailChimpService.config svc) code];
        console :=
          console w ++
            [("Token exchange error:", MailChimpService.diagnostic err);
             ("OAuth callback processing error:",
              "Failed to exchange code for token")] |}).
Proof.
  intros Htok. unfold Index.oauth_callback. run_handler.
  rewrite no_provider_error.
  fold (negb (q_truthy (query req !! "code"))).
  fold (negb (q_is_string (query req !! "code"))).
  rewrite callback_code_accepted, code_present. run_handler. cbn [q_to_string].
  rewrite Htok. run_handler.
  rewrite (or_else_Some_nonempty "Failed to exchange code for token") by done.
  rewrite <- !app_assoc. reflexivity.
Qed.

Lemma callback_metadata_rejected (tok : MailChimpTokenResponse) (err : AxiosError) :
  oauth_token (provider c) (MailChimpService.config svc) code = inr tok ->
  oauth_metadata (provider c) (access_token tok) = inl err ->
  Index.oauth_callback svc req c w =
    (Return (processing_failed (env c) "Failed to fetch user metadata"),
     {| userSessions := userSessions w;
        outbound :=
          outbound w ++
            [PostOAuthToken (MailChimpService.config svc) code;
             GetMetadata (access_token tok)];
        console :=
          console w ++
            [("Metadata fetch error:", MailChimpService.diagnostic err);
             ("OAuth callback processing error:",
              "Failed to fetch user metadata")] |}).
Proof.
  intros Htok Hmd. unfold Index.oauth_callback. run_handler.
  rewrite no_provider_error.
  fold (negb (q_truthy (query req !! "code"))).
  fold (negb (q_is_string (query req !! "code"))).
  rewrite callback_code_accepted, code_present. run_handler. cbn [q_to_string].
  rewrite Htok. run_handler. rewrite Hmd. run_handler.
  rewrite (or_else_Some_nonempty "Failed to fetch user metadata") by done.
  rewrite <- !app_assoc. reflexivity.
Qed.

Lemma callback_established (tok : MailChimpTokenResponse) (md : MailChimpMetadata) :
  oauth_token (provider c) (MailChimpService.config svc) code = inr tok ->
  oauth_metadata (provider c) (access_token tok) = inr md ->
  Index.oauth_callback svc req c w =
    (Return
       {| status := 302; response_headers := [];
          response_body :=
            RedirectTo
              (Index.frontendCallbackUrl (env c) ++ "?success=true&session_id="
                 ++ encodeURIComponent (generated_session_id req c)
                 ++ "&account_name=" ++ encodeURIComponent (accountname md)
                 ++ "&user_email=" ++ encodeURIComponent (email (login md))) |},
     {| userSessions :=
          <[generated_session_id req c := session_record tok md c]> (userSessions w);
        outbound :=
          outbound w ++
            [PostOAuthToken (MailChimpService.config svc) code;
             GetMetadata (access_token tok)];
        console := console w |}).
Proof.
  intros Htok Hmd. unfold Index.oauth_callback. run_handler.
  rewrite no_provider_error.
  fold (negb (q_truthy (query req !! "code"))).
  fold (negb (q_is_string (query req !! "code"))).
  rewrite callback_code_accepted, code_present. run_handler. cbn [q_to_string].
  rewrite Htok. run_handler. rewrite Hmd. run_handler.
  rewrite index_generateSessionId_eq. run_handler.
  rewrite <- !app_assoc. reflexivity.
Qed.

End CallbackEndpoint.

(** ** Session creation *)

Lemma callback_accepts_code_inv (req : Request) :
  negb (q_truthy (query req !! "code")) || negb (q_is_string (query req !! "code"))
    = false ->
  exists code, query req !! "code" = Some (QStr code) /\ code <> "".
Proof.
  destruct (query req !! "code") as [[s| |]|]; simpl; try discriminate.
  intros H. exists s. split; [done |].
  destruct (String.eqb_spec s ""); [discriminate | done].
Qed.






(** C1. Evaluation of [POST /api/mailchimp/oauth/token] on a request that
    carries an [X-Session-Id] header of the client's choosing, with a
    provider that accepts the code: the new record is stored under the
    client's string, which is also echoed in the response header, and not
    under the identifier the broker would generate for this request. The
    redirect callback, run on the same data, stores the record under the
    generated identifier. *)
Theorem oauth_token_adopts_client_session_id :
  let c := Scenario.ctx Scenario.accepting in
  let direct :=
    Router.oauth_token_handler (router_service Scenario.app)
      Scenario.token_request_with_header c (world_of ∅) in
  let callback :=
    Index.oauth_callback (index_service Scenario.app)
      Scenario.callback_request c (world_of ∅) in
  userSessions direct.2 = {[ "chosen-by-client" := Scenario.session ]}
  /\ (response_headers <$> response_of direct)
     = Some [("X-Session-Id", "chosen-by-client")]
  /\ generated_session_id Scenario.token_request_with_header c
     = "192.168.1.1-1635789012345-0.abc123"
  /\ userSessions callback.2
     = {[ "192.168.1.1-1635789012345-0.abc123" := Scenario.session ]}.
Proof. vm_compute. repeat split. Qed.

(** When the request carries a non-empty [X-Session-Id] header and both
    provider steps succeed, the direct entry point stores the record under
    the header's value. *)
Lemma oauth_token_session_key_is_header (svc : MailChimpService.t) (req : Request)
    (c : Ctx) (w : World) (code header : string)
    (tok : MailChimpTokenResponse) (md : MailChimpMetadata) :
  body req !! "code" = Some code -> code <> "" ->
  headers req !! "x-session-id" = Some header -> header <> "" ->
  oauth_token (provider c) (MailChimpService.config svc) code = inr tok ->
  oauth_metadata (provider c) (access_token tok) = inr md ->
  userSessions (Router.oauth_token_handler svc req c w).2
    = <[header := session_record tok md c]> (userSessions w).
Proof.
  intros Hcode Hne Hhdr Hhne Htok Hmd.
  rewrite (token_established svc req c w code) with (tok := tok) (md := md)
                                                     (sid := header); try done.
  by rewrite getSessionId_header with (sid := header).
Qed.

(** ** Response envelope *)

Ltac split_run :=
  repeat (run_handler;
          match goal with
          | |- context [match ?x with _ => _ end] =>
              lazymatch x with
              | context [match _ with _ => _ end] => fail
              | _ => destruct x eqn:?
              end
          end);
  run_handler.

Lemma router_envelope (app : App) (ep : Endpoint) (req : Request) (c : Ctx)
    (w : World) :
  ep <> OAuthVerify -> ep <> Health ->
  exists r, (handle app ep req c w).1 = Return r /\ response_is_envelope r = true.
Proof.
  intros Hcb Hhealth. destruct ep; try done; simpl.
  - eexists; split; reflexivity.
  - unfold Router.oauth_token_handler, Router.getSessionId,
      Router.generateSessionId.
    split_run; eexists; split; reflexivity.
  - unfold Router.status_handler, Router.getSessionId, Router.generateSessionId.
    split_run; eexists; split; reflexivity.
  - unfold Router.lists_handler, Router.getSessionId, Router.generateSessionId.
    split_run; eexists; split; reflexivity.
  - unfold Router.campaign_send, Router.getSessionId, Router.generateSessionId.
    split_run; eexists; split; reflexivity.
  - unfold Router.disconnect, Router.getSessionId, Router.generateSessionId.
    split_run; eexists; split; reflexivity.
  - eexists; split; reflexivity.
  - eexists; split; reflexivity.
Qed.

Lemma callback_always_redirects (svc : MailChimpService.t) (req : Request)
    (c : Ctx) (w : World) :
  exists url,
    (Index.oauth_callback svc req c w).1
    = Return {| status := 302; response_headers := [];
                response_body := RedirectTo url |}.
Proof.
  unfold Index.oauth_callback, Index.generateSessionId.
  split_run; eexists; reflexivity.
Qed.

(** C8, as stated, fails on the health endpoint: [GET /] answers JSON that
    has neither a [success] nor a [data] field. *)
Lemma health_response_outside_envelope :
  exists r j,
    (handle Scenario.app Health (Scenario.with_session "s1")
       (Scenario.ctx Scenario.accepting) (world_of ∅)).1 = Return r
    /\ response_body r = JsonBody j
    /\ is_envelope j = false.
Proof. do 2 eexists. repeat split. Qed.

(** C8, amended. Every handler answers. The six [/api/mailchimp] routes,
    the error middleware and the 404 handler answer with a JSON envelope:
    [success] is a boolean, on success [data] is present and not [null] and
    there is no [message], on failure [message] is a string and [data] is
    [null]. The OAuth callback answers with a redirect and no JSON. The
    health endpoint answers with the JSON object of keys [message],
    [version], [documentation], [endpoints]. *)
Theorem envelope_on_all_but_health
    (app : App) (ep : Endpoint) (req : Request) (c : Ctx) (w : World) :
  exists r,
    (handle app ep req c w).1 = Return r
    /\ match ep with
       | Health =>
           exists fs,
             response_body r = JsonBody (JObj fs)
             /\ fs.*1 = ["message"; "version"; "documentation"; "endpoints"]
       | OAuthVerify => exists url, response_body r = RedirectTo url
       | _ => response_is_envelope r = true
       end.
Proof.
  destruct ep;
    try (apply router_envelope; discriminate).
  - destruct (callback_always_redirects (index_service app) req c w) as [url H].
    eexists. split; [exact H |]. by exists url.
  - eexists. split; [reflexivity |]. eexists. split; reflexivity.
Qed.

(** ** Upstream failures *)

Ltac agree_on H p q :=
  match goal with
  | |- context [oauth_token p ?cfg ?code] =>
      let E := fresh "E" in
      pose proof (agree_oauth_token p q H cfg code) as E;
      destruct (oauth_token p cfg code), (oauth_token q cfg code);
      simpl in E; [ | done | done | subst ]
  | |- context [oauth_metadata p ?t] =>
      let E := fresh "E" in
      pose proof (agree_oauth_metadata p q H t) as E;
      destruct (oauth_metadata p t), (oauth_metadata q t);
      simpl in E; [ | done | done | subst ]
  | |- context [api_lists p ?t ?d] =>
      let E := fresh "E" in
      pose proof (agree_api_lists p q H t d) as E;
      destruct (api_lists p t d), (api_lists q t d);
      simpl in E; [ | done | done | subst ]
  | |- context [api_campaigns p ?t ?d ?l ?s ?f ?r] =>
      let E := fresh "E" in
      pose proof (agree_api_campaigns p q H t d l s f r) as E;
      destruct (api_campaigns p t d l s f r), (api_campaigns q t d l s f r);
      simpl in E; [ | done | done | subst ]
  | |- context [api_campaign_content p ?t ?d ?i ?h] =>
      let E := fresh "E" in
      pose proof (agree_api_campaign_content p q H t d i h) as E;
      destruct (api_campaign_content p t d i h), (api_campaign_content q t d i h);
      simpl in E; [ | done | done | subst ]
  | |- context [api_campaign_send p ?t ?d ?i] =>
      let E := fresh "E" in
      pose proof (agree_api_campaign_send p q H t d i) as E;
      destruct (api_campaign_send p t d i), (api_campaign_send q t d i);
      simpl in E; [ | done | done | subst ]
  end.

Ltac split_pure :=
  match goal with
  | |- context [if ?x then _ else _] =>
      lazymatch x with
      | context [match _ with _ => _ end] => fail
      | _ => destruct x eqn:?
      end
  | |- context [match userSessions ?w !! ?k with _ => _ end] =>
      destruct (userSessions w !! k) eqn:?
  end.

Ltac compare_runs H p q :=
  cbn [with_provider provider env date_now math_random_36 new_date];
  repeat (run_handler;
          cbn [with_provider provider env date_now math_random_36 new_date];
          first [ agree_on H p q | split_pure ]);
  run_handler; repeat split; reflexivity.

Lemma handle_ignores_error_bodies (app : App) (ep : Endpoint) (req : Request)
    (c : Ctx) (w : World) (p q : Provider) :
  providers_agree p q ->
  let run_p := handle app ep req (with_provider c p) w in
  let run_q := handle app ep req (with_provider c q) w in
  run_p.1 = run_q.1
  /\ userSessions run_p.2 = userSessions run_q.2
  /\ outbound run_p.2 = outbound run_q.2.
Proof.
  intros H. destruct ep; simpl.
  - unfold Index.oauth_callback, Index.generateSessionId. compare_runs H p q.
  - repeat split; reflexivity.
  - unfold Router.oauth_token_handler, Router.getSessionId,
      Router.generateSessionId. compare_runs H p q.
  - unfold Router.status_handler, Router.getSessionId, Router.generateSessionId.
    compare_runs H p q.
  - unfold Router.lists_handler, Router.getSessionId, Router.generateSessionId.
    compare_runs H p q.
  - unfold Router.campaign_send, Router.getSessionId, Router.generateSessionId.
    compare_runs H p q.
  - unfold Router.disconnect, Router.getSessionId, Router.generateSessionId.
    compare_runs H p q.
  - repeat split; reflexivity.
  - repeat split; reflexivity.
  - repeat split; reflexivity.
Qed.

Lemma service_failures_are_fixed (this : MailChimpService.t) (c : Ctx) (w : World)
    (err : AxiosError) :
  (forall code,
      oauth_token (provider c) (MailChimpService.config this) code = inl err ->
      (MailChimpService.exchangeCodeForToken this code c w).1
      = Throw {| message := "Failed to exchange code for token" |})
  /\ (forall t,
        oauth_metadata (provider c) t = inl err ->
        (MailChimpService.getUserMetadata this t c w).1
        = Throw {| message := "Failed to fetch user metadata" |})
  /\ (forall t d,
        api_lists (provider c) t d = inl err ->
        (MailChimpService.getLists this t d c w).1
        = Throw {| message := "Failed to fetch email lists" |})
  /\ (forall t d l s f r,
        api_campaigns (provider c) t d l s f r = inl err ->
        (MailChimpService.createCampaign this t d l s f r c w).1
        = Throw {| message := "Failed to create campaign" |})
  /\ (forall t d i h,
        api_campaign_content (provider c) t d i h = inl err ->
        (MailChimpService.setCampaignContent this t d i h c w).1
        = Throw {| message := "Failed to set campaign content" |})
  /\ (forall t d i,
        api_campaign_send (provider c) t d i = inl err ->
        (MailChimpService.sendCampaign this t d i c w).1
        = Throw {| message := "Failed to send campaign" |}).
Proof.
  repeat split; intros; run_handler;
    match goal with H : _ = inl err |- _ => rewrite H end; reflexivity.
Qed.

(** C9. Each Provider Client call that the provider rejects throws its own
    fixed message, whatever the provider's error says. Consequently, for
    every endpoint, two runs on the same request and state against
    providers that accept the same calls with the same data and reject the
    same calls, with whatever error bodies, give the same response, session
    map and outbound calls: the error bodies reach the console only. *)
Theorem upstream_failure_message_is_generic
    (app : App) (ep : Endpoint) (req : Request) (c : Ctx) (w : World)
    (p q : Provider) :
  providers_agree p q ->
  let run_p := handle app ep req (with_provider c p) w in
  let run_q := handle app ep req (with_provider c q) w in
  (run_p.1 = run_q.1
   /\ userSessions run_p.2 = userSessions run_q.2
   /\ outbound run_p.2 = outbound run_q.2)
  /\ forall (this : MailChimpService.t) (err : AxiosError),
       (forall code,
           oauth_token p (MailChimpService.config this) code = inl err ->
           (MailChimpService.exchangeCodeForToken this code (with_provider c p) w).1
           = Throw {| message := "Failed to exchange code for token" |})
       /\ (forall t,
             oauth_metadata p t = inl err ->
             (MailChimpService.getUserMetadata this t (with_provider c p) w).1
             = Throw {| message := "Failed to fetch user metadata" |})
       /\ (forall t d,
             api_lists p t d = inl err ->
             (MailChimpService.getLists this t d (with_provider c p) w).1
             = Throw {| message := "Failed to fetch email lists" |})
       /\ (forall t d l s f r,
             api_campaigns p t d l s f r = inl err ->
             (MailChimpService.createCampaign this t d l s f r
                (with_provider c p) w).1
             = Throw {| message := "Failed to create campaign" |})
       /\ (forall t d i h,
             api_campaign_content p t d i h = inl err ->
             (MailChimpService.setCampaignContent this t d i h
                (with_provider c p) w).1
             = Throw {| message := "Failed to set campaign content" |})
       /\ (forall t d i,
             api_campaign_send p t d i = inl err ->
             (MailChimpService.sendCampaign this t d i (with_provider c p) w).1
             = Throw {| message := "Failed to send campaign" |}).
Proof.
  intros H run_p run_q. split.
  - by apply handle_ignores_error_bodies.
  - intros this err.
    apply (service_failures_are_fixed this (with_provider c p) w err).
Qed.

Lemma upstream_failure_message_is_generic_witness :
  (handle Scenario.app ApiOAuthToken Scenario.token_request
     (with_provider (Scenario.ctx Scenario.accepting)
        (Scenario.metadata_down "{detail: 'API key revoked'}"))
     (world_of ∅)).1
  = (handle Scenario.app ApiOAuthToken Scenario.token_request
       (with_provider (Scenario.ctx Scenario.accepting)
          (Scenario.metadata_down "<html>502 Bad Gateway</html>"))
       (world_of ∅)).1.
Proof.
  apply (upstream_failure_message_is_generic Scenario.app ApiOAuthToken
           Scenario.token_request (Scenario.ctx Scenario.accepting) (world_of ∅)
           (Scenario.metadata_down "{detail: 'API key revoked'}")
           (Scenario.metadata_down "<html>502 Bad Gateway</html>")).
  split; intros; simpl; try done.
  destruct (String.eqb code "abc123"); done.
Defined.

(** ** One session map for both service instances *)

Lemma getSessionId_nonempty (req : Request) (c : Ctx) (w : World) (sid : string) :
  (Router.getSessionId req c w).1 = Return sid -> sid <> "".
Proof.
  unfold Router.getSessionId.
  destruct (truthy (headers req !! "x-session-id")) eqn:Hh; simpl.
  - destruct (truthy_true_inv _ Hh) as (h & -> & Hne). simpl. congruence.
  - intros [= <-]. apply generated_session_id_nonempty.
Qed.

Lemma stored_session_visible (app : App) (sid : string) (session : UserSession)
    (w : World) :
  sid <> "" ->
  userSessions w !! sid = Some session ->
  visible_to_gated_endpoints app sid session w.
Proof.
  intros Hne Hstored req c Hhdr.
  pose proof (getSessionId_header req sid c w Hhdr Hne) as Hsid.
  repeat split.
  - simpl. unfold Router.status_handler. run_handler. rewrite Hsid. run_handler.
    rewrite Hstored. reflexivity.
  - simpl. unfold Router.lists_handler. run_handler. rewrite Hsid. run_handler.
    rewrite Hstored. run_handler.
    destruct (api_lists (provider c) (accessToken session) (dc (metadata session)));
      reflexivity.
  - intros listId subject content fromName replyTo
      HlistId ? Hsubject ? Hcontent ? HfromName ? HreplyTo ?.
    simpl.
    rewrite (campaign_send_reaches_create (router_service app) req c w sid
               listId subject content fromName replyTo session)
      by (done || by rewrite Hsid).
    run_handler.
    destruct (api_campaigns (provider c) (accessToken session)
                (dc (metadata session)) listId subject fromName replyTo);
      run_handler; [eexists; reflexivity |].
    destruct (api_campaign_content (provider c) (accessToken session)
                (dc (metadata session)) (id m) content);
      run_handler; [rewrite <- app_assoc; eexists; reflexivity |].
    destruct (api_campaign_send (provider c) (accessToken session)
                (dc (metadata session)) (id m));
      run_handler; rewrite <- !app_assoc; eexists; reflexivity.
  - simpl. unfold Router.disconnect. run_handler. rewrite Hsid. reflexivity.
  - simpl. unfold Router.disconnect at 1 2. run_handler. rewrite Hsid. run_handler.
    apply status_absent with sid.
    + by erewrite getSessionId_at by (by rewrite Hsid).
    + apply lookup_delete_eq.
Qed.

(** C10. The session map belongs to the module, not to a service instance:
    what one instance stores, any other instance reads and removes. So, for
    any two instances held by the entry module and the router, a session
    established by the redirect callback (entry module's instance) and a
    session established by [POST /oauth/token] (router's instance) are both
    seen by every gated endpoint, and removed by [/disconnect]. *)
Theorem session_map_shared_by_all_instances (app : App) :
  (forall (a b : MailChimpService.t) (sid accessToken : string)
          (md : MailChimpMetadata) (c c' : Ctx) (w : World),
      let stored := (MailChimpService.storeUserSession a sid accessToken md c w).2 in
      (MailChimpService.getUserSession b sid c' stored).1
      = Return (Some {| accessToken := accessToken; metadata := md;
                        connectedAt := new_date c |})
      /\ (MailChimpService.getUserSession a sid c'
            (MailChimpService.removeUserSession b sid c' stored).2).1
         = Return None)
  /\ (forall (req : Request) (c : Ctx) (w : World) (code : string)
             (tok : MailChimpTokenResponse) (md : MailChimpMetadata),
        q_truthy (query req !! "error") = false ->
        query req !! "code" = Some (QStr code) -> code <> "" ->
        oauth_token (provider c) (MailChimpService.config (index_service app)) code
          = inr tok ->
        oauth_metadata (provider c) (access_token tok) = inr md ->
        visible_to_gated_endpoints app (generated_session_id req c)
          (session_record tok md c) (handle app OAuthVerify req c w).2)
  /\ (forall (req : Request) (c : Ctx) (w : World) (code sid : string)
             (tok : MailChimpTokenResponse) (md : MailChimpMetadata),
        body req !! "code" = Some code -> code <> "" ->
        oauth_token (provider c) (MailChimpService.config (router_service app)) code
          = inr tok ->
        oauth_metadata (provider c) (access_token tok) = inr md ->
        (Router.getSessionId req c w).1 = Return sid ->
        visible_to_gated_endpoints app sid
          (session_record tok md c) (handle app ApiOAuthToken req c w).2).
Proof.
  split; [| split].
  - intros a b sid tok md c c' w. simpl. split.
    + by rewrite lookup_insert_eq.
    + by rewrite lookup_delete_eq.
  - intros req c w code tok md Herr Hcode Hne Htok Hmd. simpl.
    rewrite (callback_established (index_service app) req c w code) with
      (tok := tok) (md := md) by done.
    apply stored_session_visible.
    + apply generated_session_id_nonempty.
    + apply lookup_insert_eq.
  - intros req c w code sid tok md Hcode Hne Htok Hmd Hsid. simpl.
    rewrite (token_established (router_service app) req c w code) with
      (tok := tok) (md := md) (sid := sid) by done.
    apply stored_session_visible.
    + by apply getSessionId_nonempty with req c w.
    + apply lookup_insert_eq.
Qed.

Lemma session_map_shared_by_all_instances_witness :
  let c := Scenario.ctx Scenario.accepting in
  let connected := (handle Scenario.app OAuthVerify Scenario.callback_request c
                      (world_of ∅)).2 in
  handle Scenario.app ApiStatus
    (Scenario.with_session "192.168.1.1-1635789012345-0.abc123") c connected
  = (Return (connected_status Scenario.acme), connected).
Proof.
  intros c connected.
  destruct (session_map_shared_by_all_instances Scenario.app) as (_ & Hcallback & _).
  refine (proj1 (Hcallback Scenario.callback_request c (world_of ∅) "abc123"
                   Scenario.token Scenario.acme _ _ _ _ _
                   (Scenario.with_session "192.168.1.1-1635789012345-0.abc123")
                   c _));
    solve [ vm_compute; reflexivity | discriminate ].
Defined.

(** * Further properties of the code *)

(** ** Session store laws *)

(** X1. [storeUserSession] overwrites: after two stores under one
    identifier, through any two instances, the lookup gives the second
    record and the map is the one a single store of the second record
    gives. A store leaves every other identifier, the outbound calls and
    the console as they were. *)
Theorem storeUserSession_last_write_wins
    (a b : MailChimpService.t) (sid other tok1 tok2 : string)
    (md1 md2 : MailChimpMetadata) (c1 c2 c3 : Ctx) (w : World) :
  let first := (MailChimpService.storeUserSession a sid tok1 md1 c1 w).2 in
  let second := (MailChimpService.storeUserSession b sid tok2 md2 c2 first).2 in
  (MailChimpService.getUserSession a sid c3 second).1
  = Return (Some {| accessToken := tok2; metadata := md2;
                    connectedAt := new_date c2 |})
  /\ second = (MailChimpService.storeUserSession b sid tok2 md2 c2 w).2
  /\ (other <> sid ->
      (MailChimpService.getUserSession a other c3 first)
      = (Return (userSessions w !! other), first))
  /\ outbound first = outbound w
  /\ console first = console w.
Proof.
  simpl. repeat split.
  - by rewrite lookup_insert_eq.
  - f_equal. apply insert_insert_eq.
  - intros Hne. unfold MailChimpService.getUserSession. simpl.
    by rewrite lookup_insert_ne.
Qed.

Lemma storeUserSession_last_write_wins_witness :
  (MailChimpService.getUserSession (router_service Scenario.app) "s2"
     (Scenario.ctx Scenario.accepting)
     (MailChimpService.storeUserSession (index_service Scenario.app) "s1"
        "tok_1" Scenario.acme (Scenario.ctx Scenario.accepting) (world_of ∅)).2)
  = (Return None,
     (MailChimpService.storeUserSession (index_service Scenario.app) "s1"
        "tok_1" Scenario.acme (Scenario.ctx Scenario.accepting) (world_of ∅)).2).
Proof.
  refine (proj1 (proj2 (proj2
            (storeUserSession_last_write_wins (router_service Scenario.app)
               (router_service Scenario.app) "s1" "s2" "tok_1" "tok_1"
               Scenario.acme Scenario.acme (Scenario.ctx Scenario.accepting)
               (Scenario.ctx Scenario.accepting)
               (Scenario.ctx Scenario.accepting) (world_of ∅)))) _).
  discriminate.
Defined.

(** X2. [removeUserSession] removes one identifier only: every other
    identifier looks up as before, removal commutes with a store under
    another identifier, and storing under an identifier that was absent
    and then removing it gives back the original world. *)
Theorem removeUserSession_frame
    (a b : MailChimpService.t) (sid other tok : string)
    (md : MailChimpMetadata) (c1 c2 : Ctx) (w : World) :
  (other <> sid ->
   userSessions (MailChimpService.removeUserSession a sid c1 w).2 !! other
   = userSessions w !! other
   /\ (MailChimpService.removeUserSession a sid c1
         (MailChimpService.storeUserSession b other tok md c2 w).2).2
      = (MailChimpService.storeUserSession b other tok md c2
           (MailChimpService.removeUserSession a sid c1 w).2).2)
  /\ (userSessions w !! sid = None ->
      (MailChimpService.removeUserSession a sid c1
         (MailChimpService.storeUserSession b sid tok md c2 w).2).2 = w).
Proof.
  split.
  - intros Hne. simpl. split.
    + by rewrite lookup_delete_ne.
    + f_equal. by rewrite delete_insert_ne.
  - intros Habsent. destruct w as [s o l]. simpl in *. f_equal.
    rewrite delete_insert_eq. by apply delete_id.
Qed.

Lemma removeUserSession_frame_witness :
  (MailChimpService.removeUserSession (router_service Scenario.app) "s1"
     (Scenario.ctx Scenario.accepting)
     (MailChimpService.storeUserSession (index_service Scenario.app) "s1"
        "tok_1" Scenario.acme (Scenario.ctx Scenario.accepting)
        (world_of {[ "s2" := Scenario.session ]})).2).2
  = world_of {[ "s2" := Scenario.session ]}.
Proof.
  refine (proj2 (removeUserSession_frame (router_service Scenario.app)
                   (index_service Scenario.app) "s1" "s2" "tok_1" Scenario.acme
                   (Scenario.ctx Scenario.accepting)
                   (Scenario.ctx Scenario.accepting)
                   (world_of {[ "s2" := Scenario.session ]})) _).
  vm_compute. reflexivity.
Defined.

(** ** Configuration *)

Lemma or_else_nonempty (o : option string) (d : string) :
  d <> "" -> or_else o d <> "".
Proof.
  intros Hd. unfold or_else. destruct (truthy o) eqn:Ht; [| done].
  destruct (truthy_true_inv _ Ht) as (s & -> & Hs). done.
Qed.

(** X3. [getMailChimpConfig] never yields an empty client id, client secret
    or redirect URI: a variable of the environment that is set and not
    empty is used as it is, and one that is unset or empty gives way to the
    built-in default. *)
Theorem getMailChimpConfig_fields (e : ProcessEnv) :
  let cfg := getMailChimpConfig e in
  (clientId cfg <> "" /\ clientSecret cfg <> "" /\ redirectUri cfg <> "")
  /\ (forall v, v <> "" ->
        (MAILCHIMP_CLIENT_ID e = Some v -> clientId cfg = v)
        /\ (MAILCHIMP_CLIENT_SECRET e = Some v -> clientSecret cfg = v)
        /\ (MAILCHIMP_REDIRECT_URI e = Some v -> redirectUri cfg = v))
  /\ (empty_or_missing (MAILCHIMP_CLIENT_ID e) -> clientId cfg = "741151044464")
  /\ (empty_or_missing (MAILCHIMP_CLIENT_SECRET e) ->
      clientSecret cfg = "274283b1a39ed2a0316f248d97a8e7e58e42dfa153667bb8c0")
  /\ (empty_or_missing (MAILCHIMP_REDIRECT_URI e) ->
      redirectUri cfg = "http://127.0.0.1:3001/oauth-verify/mailchimp").
Proof.
  simpl. repeat split; try (by apply or_else_nonempty).
  - intros ->. by apply or_else_Some_nonempty.
  - intros ->. by apply or_else_Some_nonempty.
  - intros ->. by apply or_else_Some_nonempty.
  - intros H. unfold or_else. by rewrite (truthy_empty_or_missing _ H).
  - intros H. unfold or_else. by rewrite (truthy_empty_or_missing _ H).
  - intros H. unfold or_else. by rewrite (truthy_empty_or_missing _ H).
Qed.

Lemma getMailChimpConfig_fields_witness :
  clientId
    (getMailChimpConfig
       {| PORT := None; FRONTEND_URL := None; MAILCHIMP_CLIENT_ID := Some "";
          MAILCHIMP_CLIENT_SECRET := Some "s3cret";
          MAILCHIMP_REDIRECT_URI := None |})
  = "741151044464".
Proof.
  refine (proj1 (proj2 (proj2 (getMailChimpConfig_fields _))) _).
  right. reflexivity.
Defined.

(** ** Provider client *)

(** X4. The six request wrappers own no state: each makes exactly one
    outbound request, never touches the session map, returns the
    provider's data when the request is accepted, and when it is rejected
    logs one line holding the provider's diagnostic (the response body if
    there is one and it is not empty, else the transport message). *)
Theorem provider_client_is_stateless
    (this : MailChimpService.t) (c : Ctx) (w : World) :
  let log {A} (label : string) (r : AxiosError + A) :=
    match r with
    | inl err => [(label, MailChimpService.diagnostic err)]
    | inr _ => []
    end in
  (forall code,
      let r := oauth_token (provider c) (MailChimpService.config this) code in
      let run := MailChimpService.exchangeCodeForToken this code c w in
      run.2 = after_call w (PostOAuthToken (MailChimpService.config this) code)
                (log "Token exchange error:" r)
      /\ forall data, r = inr data -> run.1 = Return data)
  /\ (forall t,
        let r := oauth_metadata (provider c) t in
        let run := MailChimpService.getUserMetadata this t c w in
        run.2 = after_call w (GetMetadata t) (log "Metadata fetch error:" r)
        /\ forall data, r = inr data -> run.1 = Return data)
  /\ (forall t d,
        let r := api_lists (provider c) t d in
        let run := MailChimpService.getLists this t d c w in
        run.2 = after_call w (GetLists t d) (log "Lists fetch error:" r)
        /\ forall data, r = inr data -> run.1 = Return data)
  /\ (forall t d l s f y,
        let r := api_campaigns (provider c) t d l s f y in
        let run := MailChimpService.createCampaign this t d l s f y c w in
        run.2 = after_call w (PostCampaign t d l s f y)
                  (log "Campaign creation error:" r)
        /\ forall data, r = inr data -> run.1 = Return data)
  /\ (forall t d i h,
        let r := api_campaign_content (provider c) t d i h in
        let run := MailChimpService.setCampaignContent this t d i h c w in
        run.2 = after_call w (PutCampaignContent t d i h)
                  (log "Campaign content error:" r)
        /\ forall data, r = inr data -> run.1 = Return tt)
  /\ (forall t d i,
        let r := api_campaign_send (provider c) t d i in
        let run := MailChimpService.sendCampaign this t d i c w in
        run.2 = after_call w (PostCampaignSend t d i)
                  (log "Campaign send error:" r)
        /\ forall data, r = inr data -> run.1 = Return tt).
Proof.
  cbv zeta. unfold after_call.
  repeat split; intros; run_handler;
    match goal with
    | H : _ = inr _ |- _ => rewrite H; run_handler; reflexivity
    | |- context [match ?x with _ => _ end] =>
        destruct x; run_handler; rewrite ?app_nil_r; reflexivity
    end.
Qed.

Lemma provider_client_is_stateless_witness :
  (MailChimpService.getLists (router_service Scenario.app) "tok_1" "us1"
     (Scenario.ctx Scenario.accepting) (world_of ∅)).1
  = Return {| lists := []; total_items := 0 |}.
Proof.
  refine (proj2 (proj1 (proj2 (proj2
            (provider_client_is_stateless (router_service Scenario.app)
               (Scenario.ctx Scenario.accepting) (world_of ∅))))
            "tok_1" "us1") _ _).
  reflexivity.
Defined.

(** ** Validation before any outbound call *)

(** X5. [POST /oauth/token] whose body has no [code], or an empty one,
    answers 400 "Authorization code is required" and leaves the world as
    it was: no outbound call, no session, nothing logged. *)
Theorem oauth_token_requires_code
    (svc : MailChimpService.t) (req : Request) (c : Ctx) (w : World) :
  empty_or_missing (body req !! "code") ->
  Router.oauth_token_handler svc req c w =
    (Return
       {| status := 400;
          response_headers := [];
          response_body :=
            JsonBody
              (JObj [("success", JBool false);
                     ("message", JStr "Authorization code is required");
                     ("data", JNull)]) |},
     w).
Proof.
  intros H. apply token_code_missing. by apply truthy_empty_or_missing.
Qed.

Lemma oauth_token_requires_code_witness :
  (Router.oauth_token_handler (router_service Scenario.app)
     (Scenario.with_session "s1") (Scenario.ctx Scenario.accepting)
     (world_of ∅)).2 = world_of ∅.
Proof.
  rewrite (oauth_token_requires_code (router_service Scenario.app)
             (Scenario.with_session "s1") (Scenario.ctx Scenario.accepting)
             (world_of ∅)); [reflexivity |].
  left. vm_compute. reflexivity.
Defined.

(** X6. When the provider redirects back with a non-empty [error]
    parameter, the callback forwards it, whether or not a [code] came
    along: it logs the error, redirects the browser to the frontend with
    the error and its description percent-encoded (the description
    defaulting to "OAuth authorization failed"), makes no outbound call and
    creates no session. *)
Theorem oauth_callback_provider_error_wins
    (svc : MailChimpService.t) (req : Request) (c : Ctx) (w : World)
    (error : string) :
  query req !! "error" = Some (QStr error) -> error <> "" ->
  let description :=
    if q_truthy (query req !! "error_description")
    then q_to_string (default QObj (query req !! "error_description"))
    else "OAuth authorization failed" in
  let run := Index.oauth_callback svc req c w in
  run.1 = Return
            {| status := 302; response_headers := [];
               response_body :=
                 RedirectTo
                   (Index.frontendCallbackUrl (env c) ++ "?error="
                      ++ encodeURIComponent error ++ "&error_description="
                      ++ encodeURIComponent description) |}
  /\ userSessions run.2 = userSessions w
  /\ outbound run.2 = outbound w.
Proof.
  intros Herr Hne. cbv zeta. unfold Index.oauth_callback. run_handler.
  rewrite Herr. cbn [q_truthy q_to_string].
  destruct (String.eqb_spec error ""); [done |]. run_handler.
  repeat split.
Qed.

Lemma oauth_callback_provider_error_wins_witness :
  (Index.oauth_callback (index_service Scenario.app)
     {| ip := None; headers := ∅;
        query := {[ "error" := QStr "access_denied"; "code" := QStr "abc123" ]};
        body := ∅ |}
     (Scenario.ctx Scenario.accepting) (world_of ∅)).1
  = Return
      {| status := 302; response_headers := [];
         response_body :=
           RedirectTo
             "http://localhost:8090/oauth-verify/mailchimp?error=access_denied&error_description=OAuth%20authorization%20failed" |}.
Proof.
  refine (proj1 (oauth_callback_provider_error_wins (index_service Scenario.app)
                   {| ip := None; headers := ∅;
                      query := {[ "error" := QStr "access_denied";
                                  "code" := QStr "abc123" ]};
                      body := ∅ |}
                   (Scenario.ctx Scenario.accepting) (world_of ∅)
                   "access_denied" _ _));
    solve [ vm_compute; reflexivity | discriminate ].
Defined.

(** X7. Without a provider error, a callback whose [code] parameter is not
    a non-empty string (absent, empty, repeated so that it parses to an
    array, or a nested object) redirects to the frontend with
    [error=missing_code] and leaves the world as it was. *)
Theorem oauth_callback_requires_string_code
    (svc : MailChimpService.t) (req : Request) (c : Ctx) (w : World) :
  q_truthy (query req !! "error") = false ->
  (forall s, query req !! "code" = Some (QStr s) -> s = "") ->
  Index.oauth_callback svc req c w =
    (Return
       {| status := 302; response_headers := [];
          response_body :=
            RedirectTo
              (Index.frontendCallbackUrl (env c)
                 ++ "?error=missing_code&error_description=Authorization%20code%20not%20received") |},
     w).
Proof.
  intros Herr Hcode. rewrite callback_code_missing; [reflexivity | done |].
  destruct (query req !! "code") as [[s | l |] |]; try reflexivity.
  rewrite (Hcode s eq_refl). reflexivity.
Qed.

Lemma oauth_callback_requires_string_code_witness :
  (Index.oauth_callback (index_service Scenario.app)
     {| ip := None; headers := ∅;
        query := {[ "code" := QArr ["abc123"; "def456"] ]}; body := ∅ |}
     (Scenario.ctx Scenario.accepting) (world_of ∅)).2 = world_of ∅.
Proof.
  rewrite (oauth_callback_requires_string_code (index_service Scenario.app)
             {| ip := None; headers := ∅;
                query := {[ "code" := QArr ["abc123"; "def456"] ]}; body := ∅ |}
             (Scenario.ctx Scenario.accepting) (world_of ∅));
    [reflexivity | vm_compute; reflexivity |].
  intros s Hs. vm_compute in Hs. discriminate.
Defined.

(** ** The OAuth pipeline *)

(** X8. When the provider rejects the token exchange, both entry points
    stop there: the exchange is the only outbound call of the run (the
    metadata fetch is never attempted), no session is written, and the
    caller gets the exchange step's fixed message, as a 500 body from the
    direct endpoint and as a [processing_failed] redirect from the
    callback. *)
Theorem exchange_rejection_stops_the_pipeline
    (svc : MailChimpService.t) (req_cb req_tok : Request) (c : Ctx) (w : World)
    (code : string) (err : AxiosError) :
  code <> "" ->
  oauth_token (provider c) (MailChimpService.config svc) code = inl err ->
  (q_truthy (query req_cb !! "error") = false ->
   query req_cb !! "code" = Some (QStr code) ->
   let run := Index.oauth_callback svc req_cb c w in
   run.1 = Return (processing_failed (env c) "Failed to exchange code for token")
   /\ userSessions run.2 = userSessions w
   /\ outbound run.2
      = (outbound w ++ [PostOAuthToken (MailChimpService.config svc) code])%list)
  /\ (body req_tok !! "code" = Some code ->
      let run := Router.oauth_token_handler svc req_tok c w in
      run.1 = Return (failure_500 "Failed to exchange code for token")
      /\ userSessions run.2 = userSessions w
      /\ outbound run.2
         = (outbound w ++ [PostOAuthToken (MailChimpService.config svc) code])%list).
Proof.
  intros Hne Htok. split.
  - intros Herr Hcode. cbv zeta.
    rewrite (callback_exchange_rejected svc req_cb c w code) with (err := err)
      by done.
    repeat split.
  - intros Hcode. cbv zeta.
    rewrite (token_exchange_rejected svc req_tok c w code) with (err := err)
      by done.
    repeat split.
Qed.

Lemma exchange_rejection_stops_the_pipeline_witness :
  outbound
    (Router.oauth_token_handler (router_service Scenario.app)
       {| ip := None; headers := ∅; query := ∅;
          body := {[ "code" := "expired" ]} |}
       (Scenario.ctx Scenario.accepting) (world_of ∅)).2
  = [PostOAuthToken (getMailChimpConfig Scenario.process_env) "expired"].
Proof.
  refine (proj2 (proj2 (proj2
            (exchange_rejection_stops_the_pipeline (router_service Scenario.app)
               Scenario.callback_request
               {| ip := None; headers := ∅; query := ∅;
                  body := {[ "code" := "expired" ]} |}
               (Scenario.ctx Scenario.accepting) (world_of ∅) "expired"
               (Scenario.rejection "invalid_grant") _ _) _)));
    solve [ vm_compute; reflexivity | discriminate ].
Defined.

(** X9. The two entry points run the same pipeline. Given the same code,
    the same peer address and the same surroundings, and no [X-Session-Id]
    header on the direct request, the callback and the direct endpoint
    leave the same session map and make the same outbound calls, whatever
    the provider answers; when both steps are accepted the identifier sent
    in the [X-Session-Id] response header is the key of the new record. *)
Theorem entry_points_reach_the_same_state
    (svc : MailChimpService.t) (req_cb req_tok : Request) (c : Ctx) (w : World)
    (code : string) :
  code <> "" ->
  q_truthy (query req_cb !! "error") = false ->
  query req_cb !! "code" = Some (QStr code) ->
  body req_tok !! "code" = Some code ->
  truthy (headers req_tok !! "x-session-id") = false ->
  ip req_cb = ip req_tok ->
  let callback := Index.oauth_callback svc req_cb c w in
  let direct := Router.oauth_token_handler svc req_tok c w in
  userSessions callback.2 = userSessions direct.2
  /\ outbound callback.2 = outbound direct.2
  /\ forall tok md,
       oauth_token (provider c) (MailChimpService.config svc) code = inr tok ->
       oauth_metadata (provider c) (access_token tok) = inr md ->
       exists sid,
         (response_headers <$> response_of direct) = Some [("X-Session-Id", sid)]
         /\ userSessions direct.2 !! sid = Some (session_record tok md c)
         /\ userSessions callback.2 !! sid = Some (session_record tok md c).
Proof.
  intros Hne Herr Hq Hb Hhdr Hip. cbv zeta.
  assert (generated_session_id req_cb c = generated_session_id req_tok c) as Hgen.
  { unfold generated_session_id. by rewrite Hip. }
  assert ((Router.getSessionId req_tok c w).1
          = Return (generated_session_id req_tok c)) as Hsid.
  { by rewrite getSessionId_no_header. }
  destruct (oauth_token (provider c) (MailChimpService.config svc) code)
    as [err | tok] eqn:Htok.
  { rewrite (callback_exchange_rejected svc req_cb c w code) with (err := err)
      by done.
    rewrite (token_exchange_rejected svc req_tok c w code) with (err := err)
      by done.
    repeat split. intros; discriminate. }
  destruct (oauth_metadata (provider c) (access_token tok)) as [err | md] eqn:Hmd.
  { rewrite (callback_metadata_rejected svc req_cb c w code) with
      (tok := tok) (err := err) by done.
    rewrite (token_metadata_rejected svc req_tok c w code) with
      (tok := tok) (err := err) by done.
    repeat split. intros tok' md' [= <-]. congruence. }
  rewrite (callback_established svc req_cb c w code) with (tok := tok) (md := md)
    by done.
  rewrite (token_established svc req_tok c w code) with
    (tok := tok) (md := md) (sid := generated_session_id req_tok c) by done.
  cbn [fst snd userSessions outbound]. rewrite Hgen. repeat split.
  intros tok' md' [= <-] Hmd'. rewrite Hmd in Hmd'. injection Hmd' as <-.
  exists (generated_session_id req_tok c).
  repeat split; apply lookup_insert_eq.
Qed.

Lemma entry_points_reach_the_same_state_witness :
  userSessions
    (Index.oauth_callback (index_service Scenario.app) Scenario.callback_request
       (Scenario.ctx Scenario.accepting) (world_of ∅)).2
  = userSessions
      (Router.oauth_token_handler (index_service Scenario.app)
         Scenario.token_request (Scenario.ctx Scenario.accepting)
         (world_of ∅)).2.
Proof.
  refine (proj1 (entry_points_reach_the_same_state (index_service Scenario.app)
                   Scenario.callback_request Scenario.token_request
                   (Scenario.ctx Scenario.accepting) (world_of ∅) "abc123"
                   _ _ _ _ _ _));
    solve [ vm_compute; reflexivity | discriminate ].
Defined.

Lemma callback_sessions_cases (svc : MailChimpService.t) (req : Request) (c : Ctx)
    (w : World) :
  userSessions (Index.oauth_callback svc req c w).2 = userSessions w
  \/ exists rec,
       userSessions (Index.oauth_callback svc req c w).2
       = <[generated_session_id req c := rec]> (userSessions w).
Proof.
  destruct (q_truthy (query req !! "error")) eqn:Herr.
  { left. by destruct (callback_provider_error svc req c w Herr) as [url ->]. }
  destruct (negb (q_truthy (query req !! "code"))
            || negb (q_is_string (query req !! "code"))) eqn:Hcode.
  { left. by rewrite callback_code_missing. }
  destruct (callback_accepts_code_inv req Hcode) as (code & Hpresent & Hne).
  destruct (oauth_token (provider c) (MailChimpService.config svc) code)
    as [err | tok] eqn:Htok.
  { left. by rewrite (callback_exchange_rejected svc req c w code) with (err := err). }
  destruct (oauth_metadata (provider c) (access_token tok)) as [err | md] eqn:Hmd.
  { left. by rewrite (callback_metadata_rejected svc req c w code) with
      (tok := tok) (err := err). }
  right. exists (session_record tok md c).
  by rewrite (callback_established svc req c w code) with (tok := tok) (md := md).
Qed.

Lemma token_sessions_cases (svc : MailChimpService.t) (req : Request) (c : Ctx)
    (w : World) (sid : string) :
  (Router.getSessionId req c w).1 = Return sid ->
  userSessions (Router.oauth_token_handler svc req c w).2 = userSessions w
  \/ exists rec,
       userSessions (Router.oauth_token_handler svc req c w).2
       = <[sid := rec]> (userSessions w).
Proof.
  intros Hsid.
  destruct (truthy (body req !! "code")) eqn:Hcode.
  2:{ left. by rewrite token_code_missing. }
  destruct (truthy_true_inv _ Hcode) as (code & Hpresent & Hne).
  destruct (oauth_token (provider c) (MailChimpService.config svc) code)
    as [err | tok] eqn:Htok.
  { left. by rewrite (token_exchange_rejected svc req c w code) with (err := err). }
  destruct (oauth_metadata (provider c) (access_token tok)) as [err | md] eqn:Hmd.
  { left. by rewrite (token_metadata_rejected svc req c w code) with
      (tok := tok) (err := err). }
  right. exists (session_record tok md c).
  by rewrite (token_established svc req c w code) with
    (tok := tok) (md := md) (sid := sid).
Qed.

(** X10. An OAuth run touches at most one session. Whatever the request
    and the provider's answers, the callback leaves every identifier other
    than the one it generates as it was, and the direct endpoint leaves
    every identifier other than the one the request resolves to as it
    was. *)
Theorem oauth_run_leaves_other_sessions
    (svc : MailChimpService.t) (req : Request) (c : Ctx) (w : World)
    (other : string) :
  (other <> generated_session_id req c ->
   userSessions (Index.oauth_callback svc req c w).2 !! other
   = userSessions w !! other)
  /\ (forall sid,
        (Router.getSessionId req c w).1 = Return sid -> other <> sid ->
        userSessions (Router.oauth_token_handler svc req c w).2 !! other
        = userSessions w !! other).
Proof.
  split.
  - intros Hne.
    destruct (callback_sessions_cases svc req c w) as [-> | [rec ->]]; [done |].
    by rewrite lookup_insert_ne.
  - intros sid Hsid Hne.
    destruct (token_sessions_cases svc req c w sid Hsid) as [-> | [rec ->]];
      [done |].
    by rewrite lookup_insert_ne.
Qed.

Lemma oauth_run_leaves_other_sessions_witness :
  userSessions
    (Index.oauth_callback (index_service Scenario.app) Scenario.callback_request
       (Scenario.ctx Scenario.accepting)
       (world_of {[ "s1" := Scenario.session ]})).2 !! "s1"
  = Some Scenario.session.
Proof.
  refine (proj1 (oauth_run_leaves_other_sessions (index_service Scenario.app)
                   Scenario.callback_request (Scenario.ctx Scenario.accepting)
                   (world_of {[ "s1" := Scenario.session ]}) "s1") _).
  vm_compute. discriminate.
Defined.

(** ** Lists *)

Section ListsEndpoint.

Variables (svc : MailChimpService.t) (req : Request) (c : Ctx) (w : World).
Variables (sid : string) (session : UserSession).

Hypothesis session_id : (Router.getSessionId req c w).1 = Return sid.
Hypothesis established : userSessions w !! sid = Some session.

Lemma lists_reaches_getLists :
  Router.lists_handler svc req c w =
    try_catch
      (let* listsResponse :=
         MailChimpService.getLists svc (accessToken session)
           (dc (metadata session)) in
       res_json 200 []
         (JObj [("success", JBool true);
                ("data",
                 JObj [("lists", JArr (map list_summary (lists listsResponse)))])]))
      (fun error =>
         do console_error "Lists fetch error:" (message error);
         res_json 500 []
           (JObj [("success", JBool false);
                  ("message",
                   JStr (or_else (Some (message error)) "Failed to fetch email lists"));
                  ("data", JNull)]))
      c w.
Proof.
  unfold Router.lists_handler.
  unfold try_catch, bind at 1 2.
  rewrite (getSessionId_at req c w w sid session_id).
  unfold MailChimpService.getUserSession; simpl. rewrite established.
  reflexivity.
Qed.

(** X11. For an established session, when the provider answers the lists
    request, [/lists] answers 200 with exactly the provider's lists, in
    the provider's order, each reduced to its id, name and member count
    (the provider's [total_items] is not passed on). The run makes one
    outbound call, with the session's token and datacenter, and changes
    neither the session map nor the console. *)
Theorem lists_returns_provider_lists (data : MailChimpListsApiResponse) :
  api_lists (provider c) (accessToken session) (dc (metadata session)) = inr data ->
  exists items,
    Router.lists_handler svc req c w =
      (Return
         {| status := 200;
            response_headers := [];
            response_body :=
              JsonBody
                (JObj [("success", JBool true);
                       ("data", JObj [("lists", JArr items)])]) |},
       after_call w (GetLists (accessToken session) (dc (metadata session))) [])
    /\ length items = length (lists data)
    /\ forall i l, lists data !! i = Some l -> items !! i = Some (list_summary l).
Proof.
  intros Hlists. exists (map list_summary (lists data)).
  rewrite lists_reaches_getLists. run_handler. rewrite Hlists. run_handler.
  unfold after_call. rewrite app_nil_r. split; [reflexivity |].
  split; [apply length_map |].
  intros i l Hl. by rewrite list_lookup_fmap, Hl.
Qed.

(** X12. For an established session, when the provider rejects the lists
    request, [/lists] answers 500 "Failed to fetch email lists"; the
    session stays in the map (an upstream failure does not disconnect),
    and the provider's diagnostic goes to the console only. *)
Theorem lists_failure_keeps_session (err : AxiosError) :
  api_lists (provider c) (accessToken session) (dc (metadata session)) = inl err ->
  Router.lists_handler svc req c w =
    (Return (failure_500 "Failed to fetch email lists"),
     after_call w (GetLists (accessToken session) (dc (metadata session)))
       [("Lists fetch error:", MailChimpService.diagnostic err);
        ("Lists fetch error:", "Failed to fetch email lists")])
  /\ userSessions (Router.lists_handler svc req c w).2 !! sid = Some session.
Proof.
  intros Hlists.
  assert (Router.lists_handler svc req c w =
    (Return (failure_500 "Failed to fetch email lists"),
     after_call w (GetLists (accessToken session) (dc (metadata session)))
       [("Lists fetch error:", MailChimpService.diagnostic err);
        ("Lists fetch error:", "Failed to fetch email lists")])) as Hrun.
  { rewrite lists_reaches_getLists. run_handler. rewrite Hlists. run_handler.
    rewrite (or_else_Some_nonempty "Failed to fetch email lists") by done.
    unfold after_call. cbn [userSessions outbound console].
    rewrite <- !app_assoc. reflexivity. }
  split; [exact Hrun |]. rewrite Hrun. exact established.
Qed.

End ListsEndpoint.

Lemma lists_returns_provider_lists_witness :
  exists items,
    Router.lists_handler (router_service Scenario.app)
      (Scenario.with_session "s1")
      (Scenario.ctx
         (Cases.lists_answer
            (inr {| lists := [Cases.newsletter; Cases.customers];
                    total_items := 2 |})))
      Cases.connected
    = (Return
         {| status := 200;
            response_headers := [];
            response_body :=
              JsonBody
                (JObj [("success", JBool true);
                       ("data", JObj [("lists", JArr items)])]) |},
       after_call Cases.connected (GetLists "tok_1" "us1") [])
    /\ length items = 2.
Proof.
  destruct (lists_returns_provider_lists (router_service Scenario.app)
              (Scenario.with_session "s1")
              (Scenario.ctx
                 (Cases.lists_answer
                    (inr {| lists := [Cases.newsletter; Cases.customers];
                            total_items := 2 |})))
              Cases.connected "s1" Scenario.session
              ltac:(vm_compute; reflexivity) ltac:(vm_compute; reflexivity)
              {| lists := [Cases.newsletter; Cases.customers]; total_items := 2 |}
              ltac:(reflexivity))
    as (items & Hrun & Hlen & _).
  exists items. split; [exact Hrun | exact Hlen].
Defined.

Lemma lists_failure_keeps_session_witness :
  userSessions
    (Router.lists_handler (router_service Scenario.app)
       (Scenario.with_session "s1")
       (Scenario.ctx (Cases.lists_answer (inl (Scenario.rejection "throttled"))))
       Cases.connected).2 !! "s1"
  = Some Scenario.session.
Proof.
  refine (proj2 (lists_failure_keeps_session (router_service Scenario.app)
                   (Scenario.with_session "s1")
                   (Scenario.ctx
                      (Cases.lists_answer (inl (Scenario.rejection "throttled"))))
                   Cases.connected "s1" Scenario.session _ _
                   (Scenario.rejection "throttled") _));
    vm_compute; reflexivity.
Defined.

(** ** Campaign send, the remaining outcomes *)

Section CampaignOutcomes.

Variables (svc : MailChimpService.t) (req : Request) (c : Ctx) (w : World).
Variables (sid listId subject content fromName replyTo : string).

Hypothesis draft_listId : body req !! "listId" = Some listId.
Hypothesis draft_subject : body req !! "subject" = Some subject.
Hypothesis draft_content : body req !! "content" = Some content.
Hypothesis draft_fromName : body req !! "fromName" = Some fromName.
Hypothesis draft_replyTo : body req !! "replyTo" = Some replyTo.
Hypothesis listId_nonempty : listId <> "".
Hypothesis subject_nonempty : subject <> "".
Hypothesis content_nonempty : content <> "".
Hypothesis fromName_nonempty : fromName <> "".
Hypothesis replyTo_nonempty : replyTo <> "".
Hypothesis session_id : (Router.getSessionId req c w).1 = Return sid.

(** X13. A complete draft sent without an established session is answered
    401 "Not connected to MailChimp" and the world is left as it was: the
    provider is not called. *)
Theorem campaign_send_requires_session :
  userSessions w !! sid = None ->
  Router.campaign_send svc req c w = (Return unauthorized, w).
Proof.
  intros Habsent. unfold Router.campaign_send.
  rewrite draft_listId, draft_subject, draft_content, draft_fromName,
    draft_replyTo.
  rewrite !(proj2 (truthy_Some_iff _)) by assumption. simpl.
  unfold try_catch, bind at 1 2.
  rewrite (getSessionId_at req c w w sid session_id).
  unfold MailChimpService.getUserSession; simpl. rewrite Habsent.
  reflexivity.
Qed.

Variable session : UserSession.
Hypothesis established : userSessions w !! sid = Some session.

(** X14. When the provider rejects the campaign creation, the run ends
    after that one outbound call: no content upload, no send, the answer is
    500 "Failed to create campaign" and the session map is untouched. *)
Theorem campaign_send_create_failure_stops (err : AxiosError) :
  api_campaigns (provider c) (accessToken session) (dc (metadata session))
    listId subject fromName replyTo = inl err ->
  Router.campaign_send svc req c w =
    (Return (failure_500 "Failed to create campaign"),
     after_call w
       (PostCampaign (accessToken session) (dc (metadata session))
          listId subject fromName replyTo)
       [("Campaign creation error:", MailChimpService.diagnostic err);
        ("Campaign send error:", "Failed to create campaign")]).
Proof.
  intros Hcreate.
  rewrite (campaign_send_reaches_create svc req c w sid listId subject content
             fromName replyTo session) by assumption.
  run_handler. rewrite Hcreate. run_handler.
  rewrite (or_else_Some_nonempty "Failed to create campaign") by done.
  unfold after_call. cbn [userSessions outbound console].
  rewrite <- !app_assoc. reflexivity.
Qed.

(** X15. When creation and content upload are accepted and the send action
    is rejected, the run has made exactly the three calls create, content,
    send and nothing after them (the created campaign is not deleted); the
    answer is 500 "Failed to send campaign" and the session map is
    untouched. *)
Theorem campaign_send_send_failure_leaves_campaign
    (campaign : MailChimpCampaignApiResponse) (err : AxiosError) :
  api_campaigns (provider c) (accessToken session) (dc (metadata session))
    listId subject fromName replyTo = inr campaign ->
  api_campaign_content (provider c) (accessToken session) (dc (metadata session))
    (id campaign) content = inr tt ->
  api_campaign_send (provider c) (accessToken session) (dc (metadata session))
    (id campaign) = inl err ->
  Router.campaign_send svc req c w =
    (Return (failure_500 "Failed to send campaign"),
     {| userSessions := userSessions w;
        outbound :=
          outbound w ++
            [PostCampaign (accessToken session) (dc (metadata session))
               listId subject fromName replyTo;
             PutCampaignContent (accessToken session) (dc (metadata session))
               (id campaign) content;
             PostCampaignSend (accessToken session) (dc (metadata session))
               (id campaign)];
        console :=
          console w ++
            [("Campaign send error:", MailChimpService.diagnostic err);
             ("Campaign send error:", "Failed to send campaign")] |}).
Proof.
  intros Hcreate Hcontent Hsend.
  rewrite (campaign_send_reaches_create svc req c w sid listId subject content
             fromName replyTo session) by assumption.
  run_handler. rewrite Hcreate. run_handler. rewrite Hcontent. run_handler.
  rewrite Hsend. run_handler.
  rewrite (or_else_Some_nonempty "Failed to send campaign") by done.
  rewrite <- !app_assoc. reflexivity.
Qed.

End CampaignOutcomes.

Lemma campaign_send_requires_session_witness :
  Router.campaign_send (router_service Scenario.app)
    (Scenario.draft_request "s9" "list_1") (Scenario.ctx Scenario.accepting)
    Cases.connected
  = (Return unauthorized, Cases.connected).
Proof.
  refine (campaign_send_requires_session (router_service Scenario.app)
            (Scenario.draft_request "s9" "list_1")
            (Scenario.ctx Scenario.accepting) Cases.connected
            "s9" "list_1" "x" "x" "x" "x" _ _ _ _ _ _ _ _ _ _ _ _);
    solve [ vm_compute; reflexivity | discriminate ].
Defined.

Lemma campaign_send_create_failure_stops_witness :
  outbound
    (Router.campaign_send (router_service Scenario.app)
       (Scenario.draft_request "s1" "list_1")
       (Scenario.ctx (Cases.create_down "list not found")) Cases.connected).2
  = [PostCampaign "tok_1" "us1" "list_1" "x" "x" "x"].
Proof.
  rewrite (campaign_send_create_failure_stops (router_service Scenario.app)
             (Scenario.draft_request "s1" "list_1")
             (Scenario.ctx (Cases.create_down "list not found")) Cases.connected
             "s1" "list_1" "x" "x" "x" "x"
             ltac:(vm_compute; reflexivity) ltac:(vm_compute; reflexivity)
             ltac:(vm_compute; reflexivity) ltac:(vm_compute; reflexivity)
             ltac:(vm_compute; reflexivity) ltac:(discriminate)
             ltac:(discriminate) ltac:(discriminate) ltac:(discriminate)
             ltac:(discriminate) ltac:(vm_compute; reflexivity)
             Scenario.session ltac:(vm_compute; reflexivity)
             (Scenario.rejection "list not found") ltac:(reflexivity)).
  reflexivity.
Defined.

Lemma campaign_send_send_failure_leaves_campaign_witness :
  outbound
    (Router.campaign_send (router_service Scenario.app)
       (Scenario.draft_request "s1" "list_1")
       (Scenario.ctx (Cases.send_down "not ready")) Cases.connected).2
  = [PostCampaign "tok_1" "us1" "list_1" "x" "x" "x";
     PutCampaignContent "tok_1" "us1" "cmp_9" "x";
     PostCampaignSend "tok_1" "us1" "cmp_9"].
Proof.
  rewrite (campaign_send_send_failure_leaves_campaign
             (router_service Scenario.app)
             (Scenario.draft_request "s1" "list_1")
             (Scenario.ctx (Cases.send_down "not ready")) Cases.connected
             "s1" "list_1" "x" "x" "x" "x"
             ltac:(vm_compute; reflexivity) ltac:(vm_compute; reflexivity)
             ltac:(vm_compute; reflexivity) ltac:(vm_compute; reflexivity)
             ltac:(vm_compute; reflexivity) ltac:(discriminate)
             ltac:(discriminate) ltac:(discriminate) ltac:(discriminate)
             ltac:(discriminate) ltac:(vm_compute; reflexivity)
             Scenario.session ltac:(vm_compute; reflexivity)
             Scenario.campaign (Scenario.rejection "not ready")
             ltac:(reflexivity) ltac:(reflexivity) ltac:(reflexivity)).
  reflexivity.
Defined.

(** ** What the endpoints never do *)

(** X16. Only the two OAuth entry points and [/disconnect] change the
    session map: every other handler (connect, status, lists, campaign
    send, health, the error middleware and the 404 handler) leaves it as
    it was, for every request and every answer of the provider. *)
Theorem session_map_changed_only_by_oauth_and_disconnect
    (app : App) (ep : Endpoint) (req : Request) (c : Ctx) (w : World) :
  match ep with
  | OAuthVerify | ApiOAuthToken | ApiDisconnect => True
  | _ => userSessions (handle app ep req c w).2 = userSessions w
  end.
Proof.
  destruct ep; try exact I; simpl.
  - reflexivity.
  - unfold Router.status_handler, Router.getSessionId, Router.generateSessionId.
    split_run; reflexivity.
  - unfold Router.lists_handler, Router.getSessionId, Router.generateSessionId.
    split_run; reflexivity.
  - unfold Router.campaign_send, Router.getSessionId, Router.generateSessionId.
    split_run; reflexivity.
  - reflexivity.
  - reflexivity.
  - reflexivity.
Qed.

(** X17. Only the OAuth entry points, [/lists] and [/campaign/send] call
    the provider: connect, status, disconnect, health, the error middleware
    and the 404 handler make no outbound call, for every request. *)
Theorem provider_called_only_by_oauth_lists_campaign
    (app : App) (ep : Endpoint) (req : Request) (c : Ctx) (w : World) :
  match ep with
  | OAuthVerify | ApiOAuthToken | ApiLists | ApiCampaignSend => True
  | _ => outbound (handle app ep req c w).2 = outbound w
  end.
Proof.
  destruct ep; try exact I; simpl.
  - reflexivity.
  - unfold Router.status_handler, Router.getSessionId, Router.generateSessionId.
    split_run; reflexivity.
  - unfold Router.disconnect, Router.getSessionId, Router.generateSessionId.
    split_run; reflexivity.
  - reflexivity.
  - reflexivity.
  - reflexivity.
Qed.

(** X18. [/disconnect] always answers 200 "Successfully disconnected from
    MailChimp", whether or not a session existed. It removes the record of
    the identifier the request resolves to and no other, makes no outbound
    call and logs nothing. *)
Theorem disconnect_always_succeeds
    (svc : MailChimpService.t) (req : Request) (c : Ctx) (w : World)
    (sid : string) :
  (Router.getSessionId req c w).1 = Return sid ->
  Router.disconnect svc req c w =
    (Return
       {| status := 200;
          response_headers := [];
          response_body :=
            JsonBody
              (JObj [("success", JBool true);
                     ("data",
                      JObj [("message",
                             JStr "Successfully disconnected from MailChimp")])]) |},
     {| userSessions := delete sid (userSessions w);
        outbound := outbound w;
        console := console w |})
  /\ (forall other, other <> sid ->
        userSessions (Router.disconnect svc req c w).2 !! other
        = userSessions w !! other)
  /\ userSessions (Router.disconnect svc req c w).2 !! sid = None.
Proof.
  intros Hsid.
  assert (Router.disconnect svc req c w =
    (Return
       {| status := 200;
          response_headers := [];
          response_body :=
            JsonBody
              (JObj [("success", JBool true);
                     ("data",
                      JObj [("message",
                             JStr "Successfully disconnected from MailChimp")])]) |},
     {| userSessions := delete sid (userSessions w);
        outbound := outbound w;
        console := console w |})) as Hrun.
  { unfold Router.disconnect. run_handler.
    rewrite (getSessionId_at req c w w sid Hsid). reflexivity. }
  split; [exact Hrun |]. rewrite Hrun. simpl. split.
  - intros other Hne. by rewrite lookup_delete_ne.
  - apply lookup_delete_eq.
Qed.

Lemma disconnect_always_succeeds_witness :
  userSessions
    (Router.disconnect (router_service Scenario.app) (Scenario.with_session "s9")
       (Scenario.ctx Scenario.accepting) Cases.connected).2 !! "s1"
  = Some Scenario.session.
Proof.
  rewrite (proj1 (proj2 (disconnect_always_succeeds (router_service Scenario.app)
                           (Scenario.with_session "s9")
                           (Scenario.ctx Scenario.accepting) Cases.connected "s9"
                           ltac:(vm_compute; reflexivity)))
             "s1" ltac:(discriminate)).
  vm_compute. reflexivity.
Defined.

(** ** Routing of data-API calls *)

Lemma string_app_assoc (a b d : string) : (a ++ b) ++ d = a ++ (b ++ d).
Proof.
  induction a as [| ch a IH]; [reflexivity |].
  change (String ch ((a ++ b) ++ d) = String ch (a ++ (b ++ d))).
  by rewrite IH.
Qed.

Lemma prefix_app (p s : string) : String.prefix p (p ++ s) = true.
Proof.
  induction p as [| ch p IH].
  { change (String.prefix "" s = true). by destruct s. }
  change (String.prefix (String ch p) (String ch (p ++ s)) = true).
  cbn [String.prefix]. destruct (ascii_dec ch ch); [exact IH | done].
Qed.

Lemma api_base_prefix (datacenter rest : string) :
  String.prefix (api_base datacenter)
    ("https://" ++ datacenter ++ ".api.mailchimp.com/3.0/" ++ rest) = true.
Proof.
  replace ("https://" ++ datacenter ++ ".api.mailchimp.com/3.0/" ++ rest)
    with (api_base datacenter ++ rest).
  - apply prefix_app.
  - unfold api_base. by rewrite !string_app_assoc.
Qed.

Lemma data_calls_routed (t d : string) :
  (routed_to d t (GetLists t d))
  /\ (forall l s f r, routed_to d t (PostCampaign t d l s f r))
  /\ (forall i h, routed_to d t (PutCampaignContent t d i h))
  /\ (forall i, routed_to d t (PostCampaignSend t d i)).
Proof.
  repeat split; intros; try reflexivity.
  - apply (api_base_prefix d "lists").
  - apply (api_base_prefix d "campaigns").
  - apply (api_base_prefix d ("campaigns/" ++ i ++ "/content")).
  - apply (api_base_prefix d ("campaigns/" ++ i ++ "/actions/send")).
Qed.

Ltac all_routed :=
  repeat (constructor; [solve [auto] |]); constructor.

(** X19. Every call that [/lists] and [/campaign/send] make on behalf of an
    established session goes to the data API of the datacenter stored in
    that session's metadata ([https://<dc>.api.mailchimp.com/3.0/...]) and
    carries that session's access token as bearer; neither endpoint ever
    calls the OAuth token or metadata endpoints. *)
Theorem data_calls_use_session_datacenter_and_token
    (svc : MailChimpService.t) (req : Request) (c : Ctx) (w : World)
    (sid : string) (session : UserSession) :
  (Router.getSessionId req c w).1 = Return sid ->
  userSessions w !! sid = Some session ->
  (exists calls,
      outbound (Router.lists_handler svc req c w).2 = (outbound w ++ calls)%list
      /\ Forall (routed_to (dc (metadata session)) (accessToken session)) calls)
  /\ (exists calls,
        outbound (Router.campaign_send svc req c w).2 = (outbound w ++ calls)%list
        /\ Forall (routed_to (dc (metadata session)) (accessToken session)) calls).
Proof.
  intros Hsid Hstored.
  pose proof (data_calls_routed (accessToken session) (dc (metadata session)))
    as (Hlists & Hcreate & Hcontent & Hsend).
  split.
  - rewrite (lists_reaches_getLists svc req c w sid session Hsid Hstored).
    run_handler.
    destruct (api_lists (provider c) (accessToken session) (dc (metadata session)));
      run_handler; eexists; (split; [reflexivity |]); all_routed.
  - unfold Router.campaign_send.
    destruct (negb (truthy (body req !! "listId"))
              || negb (truthy (body req !! "subject"))
              || negb (truthy (body req !! "content"))
              || negb (truthy (body req !! "fromName"))
              || negb (truthy (body req !! "replyTo"))) eqn:Hdraft.
    { exists []. run_handler. rewrite app_nil_r. split; [done | all_routed]. }
    unfold try_catch, bind at 1 2.
    rewrite (getSessionId_at req c w w sid Hsid).
    unfold MailChimpService.getUserSession; simpl. rewrite Hstored.
    run_handler.
    destruct (api_campaigns (provider c) (accessToken session)
                (dc (metadata session)) (default "" (body req !! "listId"))
                (default "" (body req !! "subject"))
                (default "" (body req !! "fromName"))
                (default "" (body req !! "replyTo"))) as [err | campaign];
      run_handler.
    { eexists. split; [reflexivity |]. all_routed. }
    destruct (api_campaign_content (provider c) (accessToken session)
                (dc (metadata session)) (id campaign)
                (default "" (body req !! "content"))) as [err | []];
      run_handler.
    { rewrite <- app_assoc. eexists. split; [reflexivity |].
      all_routed. }
    destruct (api_campaign_send (provider c) (accessToken session)
                (dc (metadata session)) (id campaign)) as [err | []];
      run_handler; rewrite <- !app_assoc; eexists;
      (split; [reflexivity |]); all_routed.
Qed.

Lemma data_calls_use_session_datacenter_and_token_witness :
  exists calls,
    outbound
      (Router.campaign_send (router_service Scenario.app)
         (Scenario.draft_request "s1" "list_1")
         (Scenario.ctx Scenario.accepting) Cases.connected).2
    = (outbound Cases.connected ++ calls)%list
    /\ Forall (routed_to "us1" "tok_1") calls.
Proof.
  exact (proj2 (data_calls_use_session_datacenter_and_token
                  (router_service Scenario.app)
                  (Scenario.draft_request "s1" "list_1")
                  (Scenario.ctx Scenario.accepting) Cases.connected
                  "s1" Scenario.session
                  ltac:(vm_compute; reflexivity) ltac:(vm_compute; reflexivity))).
Defined.

(** ** The success redirect *)

Lemma hex_digit_unreserved (n : nat) : is_uri_unreserved (hex_digit n) = true.
Proof.
  unfold hex_digit.
  do 16 (destruct n as [| n]; [reflexivity |]). destruct n; reflexivity.
Qed.

Lemma encodeURIComponent_safe (s : string) :
  uri_safe (encodeURIComponent s) = true.
Proof.
  induction s as [| ch s IH]; [reflexivity |].
  cbn [encodeURIComponent].
  destruct (is_uri_unreserved ch) eqn:Hch; cbn [uri_safe].
  - by rewrite Hch, IH.
  - rewrite !hex_digit_unreserved, IH. reflexivity.
Qed.

Lemma uri_safe_no_delimiter (v : string) (ch : ascii) :
  uri_safe v = true -> In ch (list_ascii_of_string v) ->
  ch <> "&"%char /\ ch <> "="%char /\ ch <> "?"%char /\ ch <> "#"%char
  /\ ch <> "/"%char /\ ch <> " "%char.
Proof.
  induction v as [| a v IH]; [intros _ [] |].
  cbn [uri_safe list_ascii_of_string]. intros [Ha Hv]%andb_true_iff [-> | Hin].
  - repeat split; intros ->; discriminate.
  - by apply IH.
Qed.

(** X20. When both provider steps are accepted, the callback redirects the
    browser to the frontend's callback page with [success=true] and the
    session identifier, the account name and the login email as query
    parameters. Each of the three values is percent-encoded: it consists of
    URI-unreserved characters and percent signs only, so whatever the
    provider put in the account name or email, the value holds no [&], [=],
    [?], [#], [/] or space and cannot add or cut a parameter. *)
Theorem oauth_callback_success_redirect
    (svc : MailChimpService.t) (req : Request) (c : Ctx) (w : World)
    (code : string) (tok : MailChimpTokenResponse) (md : MailChimpMetadata) :
  q_truthy (query req !! "error") = false ->
  query req !! "code" = Some (QStr code) -> code <> "" ->
  oauth_token (provider c) (MailChimpService.config svc) code = inr tok ->
  oauth_metadata (provider c) (access_token tok) = inr md ->
  exists session_id account_name user_email,
    (Index.oauth_callback svc req c w).1
    = Return
        {| status := 302; response_headers := [];
           response_body :=
             RedirectTo
               (or_else (FRONTEND_URL (env c)) "http://localhost:8090"
                  ++ "/oauth-verify/mailchimp?success=true&session_id="
                  ++ session_id ++ "&account_name=" ++ account_name
                  ++ "&user_email=" ++ user_email) |}
    /\ session_id = encodeURIComponent (generated_session_id req c)
    /\ account_name = encodeURIComponent (accountname md)
    /\ user_email = encodeURIComponent (email (login md))
    /\ forall v, In v [session_id; account_name; user_email] ->
         uri_safe v = true
         /\ forall ch, In ch (list_ascii_of_string v) ->
              ch <> "&"%char /\ ch <> "="%char /\ ch <> "?"%char
              /\ ch <> "#"%char /\ ch <> "/"%char /\ ch <> " "%char.
Proof.
  intros Herr Hcode Hne Htok Hmd.
  exists (encodeURIComponent (generated_session_id req c)),
    (encodeURIComponent (accountname md)),
    (encodeURIComponent (email (login md))).
  split.
  { rewrite (callback_established svc req c w code) with (tok := tok) (md := md)
      by done.
    cbn [fst]. unfold Index.frontendCallbackUrl.
    by rewrite !string_app_assoc. }
  do 3 (split; [reflexivity |]).
  intros v Hv.
  assert (uri_safe v = true) as Hsafe.
  { destruct Hv as [<- | [<- | [<- | []]]]; apply encodeURIComponent_safe. }
  split; [exact Hsafe |].
  intros ch Hin. by apply uri_safe_no_delimiter with v.
Qed.

Lemma oauth_callback_success_redirect_witness :
  exists session_id account_name user_email,
    (Index.oauth_callback (index_service Scenario.app) Scenario.callback_request
       (Scenario.ctx (Cases.metadata_answer Cases.ampersand_account))
       (world_of ∅)).1
    = Return
        {| status := 302; response_headers := [];
           response_body :=
             RedirectTo
               ("http://localhost:8090/oauth-verify/mailchimp?success=true&session_id="
                  ++ session_id ++ "&account_name=" ++ account_name
                  ++ "&user_email=" ++ user_email) |}
    /\ session_id = "192.168.1.1-1635789012345-0.abc123"
    /\ account_name = "Acme%20%26%20Sons%3D1"
    /\ user_email = "a%40acme.com".
Proof.
  destruct (oauth_callback_success_redirect (index_service Scenario.app)
              Scenario.callback_request
              (Scenario.ctx (Cases.metadata_answer Cases.ampersand_account))
              (world_of ∅) "abc123" Scenario.token Cases.ampersand_account
              ltac:(vm_compute; reflexivity) ltac:(vm_compute; reflexivity)
              ltac:(discriminate) ltac:(reflexivity) ltac:(reflexivity))
    as (sid & name & mail & Hrun & -> & -> & -> & _).
  do 3 eexists. split; [exact Hrun |]. repeat split.
Defined.

Lemma hex_digit_inj (a b : nat) :
  a < 16 -> b < 16 -> hex_digit a = hex_digit b -> a = b.
Proof.
  intros Ha Hb.
  do 16 (destruct a as [| a];
         [do 16 (destruct b as [| b]; [first [reflexivity | discriminate] |]);
          lia |]).
  lia.
Qed.

Lemma percent_is_reserved : is_uri_unreserved "%" = false.
Proof. reflexivity. Qed.

Lemma nat_of_ascii_lt_256 (ch : ascii) : nat_of_ascii ch < 256.
Proof. apply nat_ascii_bounded. Qed.

Lemma escaped_byte_inj (a b : ascii) :
  hex_digit (nat_of_ascii a / 16) = hex_digit (nat_of_ascii b / 16) ->
  hex_digit (nat_of_ascii a mod 16) = hex_digit (nat_of_ascii b mod 16) ->
  a = b.
Proof.
  intros Hhi Hlo.
  pose proof (nat_of_ascii_lt_256 a) as Ha.
  pose proof (nat_of_ascii_lt_256 b) as Hb.
  apply hex_digit_inj in Hhi;
    [| apply Nat.Div0.div_lt_upper_bound; lia
     | apply Nat.Div0.div_lt_upper_bound; lia].
  apply hex_digit_inj in Hlo; [| apply Nat.mod_upper_bound; lia ..].
  assert (nat_of_ascii a = nat_of_ascii b) as Heq.
  { rewrite (Nat.div_mod_eq (nat_of_ascii a) 16),
      (Nat.div_mod_eq (nat_of_ascii b) 16). by rewrite Hhi, Hlo. }
  rewrite <- (ascii_nat_embedding a), <- (ascii_nat_embedding b).
  by rewrite Heq.
Qed.

(** X21. The percent-encoding the callback applies to the session
    identifier, account name and email loses nothing: two different texts
    never encode to the same parameter value, so the [session_id] of the
    success redirect determines the key under which the session was
    stored. *)
Theorem encodeURIComponent_injective (s t : string) :
  encodeURIComponent s = encodeURIComponent t -> s = t.
Proof.
  revert t. induction s as [| a s IH]; intros [| b t]; cbn [encodeURIComponent].
  - reflexivity.
  - destruct (is_uri_unreserved b); discriminate.
  - destruct (is_uri_unreserved a); discriminate.
  - destruct (is_uri_unreserved a) eqn:Ha, (is_uri_unreserved b) eqn:Hb.
    + intros [= -> Hrest]. f_equal. by apply IH.
    + intros [= -> _]. by rewrite percent_is_reserved in Ha.
    + intros [= <- _]. by rewrite percent_is_reserved in Hb.
    + intros [= Hhi Hlo Hrest]. f_equal; [by apply escaped_byte_inj | by apply IH].
Qed.

Lemma encodeURIComponent_injective_witness :
  generated_session_id Scenario.callback_request (Scenario.ctx Scenario.accepting)
  = "192.168.1.1-1635789012345-0.abc123".
Proof.
  apply (encodeURIComponent_injective
           (generated_session_id Scenario.callback_request
              (Scenario.ctx Scenario.accepting))
           "192.168.1.1-1635789012345-0.abc123").
  vm_compute. reflexivity.
Defined.
